(** * ToiletLocatorAgent (Agent.py): location resolution and nearest-facility lookup

    A shallow embedding of the class [ToiletLocatorAgent] of [Agent.py]:
    [__init__], [extract_location], [find_nearest_toilet],
    [get_google_maps_link] and [process_query].

    The methods are written in a small state-and-exception monad over the
    agent object ([self.df], [self.stop_names]); the third-party calls
    (spaCy, NLTK, fuzzywuzzy, pandas' CSV reader, the built-in string
    methods) are the fields of the class [Externals]. *)

From stdpp Require Import gmap strings list fin_maps.
From Stdlib Require Import ZArith Lia Ascii String.

Open Scope string_scope.
Open Scope Z_scope.

(** ** Python outcomes *)

(** The exceptions the methods can raise. *)
Inductive exn : Type :=
  | TypeError    (* unpacking None: [closest_stop, score = None] *)
  | IndexError   (* [.iloc[0]] on an empty selection *)
  | IOError.     (* [pd.read_csv] failing *)

(** A call either returns a value or raises. *)
Inductive outcome (A : Type) : Type :=
  | Return (a : A)
  | Raise (e : exn).
Arguments Return {A} a.
Arguments Raise {A} e.

(** ** Third-party functions *)

(** What [Agent.py] imports and calls but does not define. *)
Class Externals := {
  (** numeric cells of the frame (numpy float64 / int64); the agent stores
      and prints them, it never computes with them *)
  num : Type;
  (** [format(x, "")], what an f-string field [{x}] prints for a number *)
  py_format : num → string;
  (** the value of a numeric literal of the source, such as 28.6129 *)
  num_literal : string → num;
  (** [pd.read_csv(path)], one tuple per row in column order
      stop_id, stop_lat, stop_lon, stop_name, nearest_washroom_id,
      washroom_latitude, washroom_longitude, distance, washroom_address *)
  read_csv_rows : string → outcome (list (string * num * num * string * string * num * num * num * string));
  (** [nlp(query).ents] as (text, label_) pairs in document order *)
  nlp_ents : string → list (string * string);
  (** [str.lower] *)
  lower : string → string;
  (** [str.isalpha] *)
  isalpha : string → bool;
  (** [nltk.tokenize.word_tokenize] *)
  word_tokenize : string → list string;
  (** [stopwords.words('english')] *)
  stopwords_english : list string;
  (** [fuzz.partial_ratio] *)
  partial_ratio : string → string → Z;
  (** [process.extractOne(query, choices)]: [None] or a pair (choice, score) *)
  extractOne : string → list string → option (string * Z);
}.

(** [sep.join(l)] *)
Fixpoint join (sep : string) (l : list string) : string :=
  match l with
  | [] => ""
  | [w] => w
  | w :: l' => w +:+ sep +:+ join sep l'
  end.

(** Truth value of [x] where [x] is a string or [None]. *)
Definition truthy (x : option string) : bool :=
  match x with
  | None => false
  | Some "" => false
  | Some _ => true
  end.

(** Values stored in the response dict of [process_query]. *)
Inductive pyval `{Externals} : Type :=
  | PyNone
  | PyBool (b : bool)
  | PyStr (s : string)
  | PyNum (n : num).

Section Agent.
Context `{E : Externals}.

(** ** Data model *)

(** One row of [self.df]; the fields are the columns of the frame. *)
Record Row : Type := {
  stop_id : string;
  stop_lat : num;
  stop_lon : num;
  stop_name : string;
  nearest_washroom_id : string;
  washroom_latitude : num;
  washroom_longitude : num;
  distance : num;
  washroom_address : string;
}.

(** The dict returned by [find_nearest_toilet]: its eight keys are fixed. *)
Record toilet_info : Type := {
  ti_stop_name : string;
  ti_stop_lat : num;
  ti_stop_lon : num;
  ti_washroom_id : string;
  ti_washroom_lat : num;
  ti_washroom_lon : num;
  ti_washroom_address : string;
  ti_distance : num;
}.

(** The agent object. *)
Record agent : Type := {
  df : list Row;
  stop_names : list string;
}.

(** ** The monad of methods: state [self] and exceptions *)

Definition M (A : Type) : Type := agent → outcome A * agent.

#[local] Instance M_ret : MRet M := λ A a self, (Return a, self).
#[local] Instance M_bind : MBind M := λ A B f m self,
  match m self with
  | (Return a, self') => f a self'
  | (Raise e, self') => (Raise e, self')
  end.

Definition get_self : M agent := λ self, (Return self, self).
Definition raise {A} (e : exn) : M A := λ self, (Raise e, self).

(** ** [__init__] *)

Definition row_of_tuple
    (t : string * num * num * string * string * num * num * num * string) : Row :=
  let '(sid, slat, slon, sname, wid, wlat, wlon, dist, waddr) := t in
  {| stop_id := sid; stop_lat := slat; stop_lon := slon; stop_name := sname;
     nearest_washroom_id := wid; washroom_latitude := wlat;
     washroom_longitude := wlon; distance := dist; washroom_address := waddr |}.

(** The sample frame built when no [data_path] is given. *)
Definition sample_df : list Row :=
  let n := num_literal in
  row_of_tuple <$>
  [ ("BS001", n "28.6129", n "77.2295", "Arjun Nagar", "PTU-13_001",
     n "28.6139", n "77.2305", n "150", "Near Arjun Nagar Market");
    ("BS002", n "28.6229", n "77.2395", "Karol Bagh", "PTU-14_002",
     n "28.6239", n "77.2405", n "200", "Karol Bagh Metro Station");
    ("BS003", n "28.6329", n "77.2495", "Connaught Place", "PTU-15_003",
     n "28.6339", n "77.2505", n "100", "Connaught Place Block A");
    ("BS004", n "28.6429", n "77.2595", "Lajpat Nagar", "PTU-16_004",
     n "28.6439", n "77.2605", n "180", "Lajpat Nagar Central Market");
    ("BS005", n "28.6529", n "77.2695", "Hauz Khas", "PTU-17_005",
     n "28.6539", n "77.2705", n "120", "Hauz Khas Village Entrance") ].

(** The object [__init__] leaves once [self.df] is loaded:
    [self.stop_names = self.df['stop_name'].tolist()]. *)
Definition agent_of_df (rows : list Row) : agent :=
  {| df := rows; stop_names := stop_name <$> rows |}.

(** [ToiletLocatorAgent(data_path)]; [data_path] defaults to [None]. *)
Definition init (data_path : option string) : outcome agent :=
  if truthy data_path then
    match read_csv_rows (default "" data_path) with
    | Return ts => Return (agent_of_df (row_of_tuple <$> ts))
    | Raise e => Raise e
    end
  else Return (agent_of_df sample_df).

(** ** [extract_location] *)

(** [[ent.text for ent in doc.ents if ent.label_ in ['LOC', 'GPE']]] *)
Definition ner_locations (query : string) : list string :=
  fst <$> filter (λ ent, ent.2 ∈ ["LOC"; "GPE"]) (nlp_ents query).

(** [' '.join([w for w in tokens if w.isalpha() and w not in stop_words])] *)
Definition filtered_tokens (query : string) : string :=
  let tokens := word_tokenize (lower query) in
  join " " (filter (λ w, isalpha w = true ∧ w ∉ stopwords_english) tokens).

(** One iteration of the loop over [self.stop_names]; the state is
    [(best_match, highest_score)]. *)
Definition fuzzy_step (filtered : string) (st : option string * Z) (stop : string)
    : option string * Z :=
  let score := partial_ratio filtered (lower stop) in
  if (st.2 <? score) && (70 <? score) then (Some stop, score) else st.

Definition fuzzy_loop (filtered : string) (names : list string) : option string * Z :=
  fold_left (fuzzy_step filtered) names (None, 0).

Definition extract_location (query : string) : M (option string) :=
  self ← get_self;
  let locations := ner_locations query in
  let locations :=
    match locations with
    | [] =>
        let best_match := (fuzzy_loop (filtered_tokens query) (stop_names self)).1 in
        if truthy best_match then option_list best_match else locations
    | _ => locations
    end in
  mret (head locations).

(** ** [find_nearest_toilet] *)

Definition info_of_row (stop_info : Row) : toilet_info :=
  {| ti_stop_name := stop_name stop_info;
     ti_stop_lat := stop_lat stop_info;
     ti_stop_lon := stop_lon stop_info;
     ti_washroom_id := nearest_washroom_id stop_info;
     ti_washroom_lat := washroom_latitude stop_info;
     ti_washroom_lon := washroom_longitude stop_info;
     ti_washroom_address := washroom_address stop_info;
     ti_distance := distance stop_info |}.

(** [self.df[self.df['stop_name'] == location]] *)
Definition rows_named (location : string) (rows : list Row) : list Row :=
  filter (λ r, stop_name r = location) rows.

(** The part of [find_nearest_toilet] after the matching: row [.iloc[0]]
    of the selection, then the dict. *)
Definition stop_info_dict (location : string) : M (option toilet_info) :=
  self ← get_self;
  match rows_named location (df self) with
  | [] => raise IndexError
  | stop_info :: _ => mret (Some (info_of_row stop_info))
  end.

Definition find_nearest_toilet (location : string) : M (option toilet_info) :=
  self ← get_self;
  if bool_decide (location ∈ stop_names self) then stop_info_dict location
  else
    match extractOne location (stop_names self) with
    | None => raise TypeError
    | Some (closest_stop, score) =>
        if score <? 60 then mret None else stop_info_dict closest_stop
    end.

(** ** [get_google_maps_link] *)

Definition get_google_maps_link (from_lat from_lon to_lat to_lon : num) : M string :=
  mret ("https://www.google.com/maps/dir/?api=1&origin=" +:+ py_format from_lat
        +:+ "," +:+ py_format from_lon
        +:+ "&destination=" +:+ py_format to_lat +:+ "," +:+ py_format to_lon
        +:+ "&travelmode=walking").

(** ** [process_query] *)

Definition no_location_message : string :=
  "I couldn't identify a location in your query. Please mention a specific bus stand or area.".

Definition no_match_message (location : string) : string :=
  "I couldn't find a bus stand matching '" +:+ location +:+ "' in our database.".

Definition found_message (info : toilet_info) : string :=
  "I found a public toilet near " +:+ ti_stop_name info
  +:+ " bus stand. It's located at " +:+ ti_washroom_address info
  +:+ ", approximately " +:+ py_format (ti_distance info)
  +:+ " meters away. You can use the Google Maps link below for directions.".

(** The two-key dict of a failure. *)
Definition failure_response (message : string) : gmap string pyval :=
  <["success" := PyBool false]> (<["message" := PyStr message]> ∅).

(** The dict of a success. *)
Definition success_response (info : toilet_info) (maps_link : string)
    : gmap string pyval :=
  <["success" := PyBool true]> (
  <["stop_name" := PyStr (ti_stop_name info)]> (
  <["stop_lat" := PyNum (ti_stop_lat info)]> (
  <["stop_lon" := PyNum (ti_stop_lon info)]> (
  <["washroom_id" := PyStr (ti_washroom_id info)]> (
  <["washroom_lat" := PyNum (ti_washroom_lat info)]> (
  <["washroom_lon" := PyNum (ti_washroom_lon info)]> (
  <["washroom_address" := PyStr (ti_washroom_address info)]> (
  <["distance" := PyNum (ti_distance info)]> (
  <["directions_link" := PyStr maps_link]> (
  <["message" := PyStr (found_message info)]> ∅)))))))))).

Definition process_query (query : string) : M (gmap string pyval) :=
  location ← extract_location query;
  if negb (truthy location) then
    mret (failure_response no_location_message)
  else
    let location := default "" location in
    info ← find_nearest_toilet location;
    match info with
    | None => mret (failure_response (no_match_message location))
    | Some info =>
        maps_link ← get_google_maps_link (ti_stop_lat info) (ti_stop_lon info)
                      (ti_washroom_lat info) (ti_washroom_lon info);
        mret (success_response info maps_link)
    end.

End Agent.

(** * The callers of the agent: the page of app.py and the demo loop of Agent.py *)

(** Exceptions a caller of the agent can meet. *)
Inductive caller_exn : Type :=
  | KeyError (key : string)     (* [result[key]] for a key the dict lacks *)
  | AgentError (e : exn).       (* raised inside a method of the agent *)

(** A piece of script that emits outputs (Streamlit calls, printed lines)
    and then returns or raises; the outputs emitted before an exception
    stay emitted. *)
Definition emitting (O A : Type) : Type := list O * (caller_exn + A).

#[global] Instance emitting_ret (O : Type) : MRet (emitting O) :=
  λ A a, ([], inr a).
#[global] Instance emitting_bind (O : Type) : MBind (emitting O) :=
  λ A B f m,
    match m with
    | (out, inl e) => (out, inl e)
    | (out, inr a) => let '(out', r) := f a in ((out ++ out')%list, r)
    end.

Definition emit {O : Type} (o : O) : emitting O unit := ([o], inr ()).
Definition fail {O A : Type} (e : caller_exn) : emitting O A := ([], inl e).

(** folium's icon, marker, line and map objects, with the arguments the
    page passes. *)
Record folium_Icon : Type := {
  icon_color : string;
  icon_name : string;
  icon_prefix : string;
}.

Inductive folium_child `{Externals} : Type :=
  | folium_Marker (location : list pyval) (popup : string) (tooltip : pyval)
      (icon : folium_Icon)
  | folium_PolyLine (locations : list (list pyval)) (color : string)
      (weight : Z) (opacity : num) (dash_array : string).

Record folium_Map `{Externals} : Type := {
  map_location : list pyval;
  map_zoom_start : Z;
  map_children : list folium_child;
}.

(** The Streamlit calls of the results part of the page.  [st_with i body]
    stands for the calls made inside [with col:] for the [i]-th column of
    the last [st.columns]. *)
#[warnings="-register-all"]
Inductive st_call `{Externals} : Type :=
  | st_markdown (body : string) (unsafe_allow_html : bool)
  | st_spinner (text : string)
  | st_columns (spec : list Z)
  | st_with (column : nat) (body : list st_call)
  | st_folium_static (m : folium_Map).

Section Callers.
Context `{E : Externals}.

(** [bool(x)] for a number [x] of the frame. *)
Variable num_bool : num → bool.

(** [result[key]] *)
Definition subscript {O : Type} (result : gmap string pyval) (key : string)
    : emitting O pyval :=
  match result !! key with
  | Some v => mret v
  | None => fail (KeyError key)
  end.

(** What an f-string field [{v}] prints. *)
Definition py_str (v : pyval) : string :=
  match v with
  | PyNone => "None"
  | PyBool true => "True"
  | PyBool false => "False"
  | PyStr s => s
  | PyNum n => py_format n
  end.

(** Truth value of a dict value. *)
Definition py_truth (v : pyval) : bool :=
  match v with
  | PyNone => false
  | PyBool b => b
  | PyStr s => truthy (Some s)
  | PyNum n => num_bool n
  end.

(** [with col:] around a block of calls. *)
Definition within {A : Type} (column : nat) (block : emitting st_call A)
    : emitting st_call A :=
  ([st_with column block.1], block.2).

(** ** app.py: [load_agent] *)

(** [os.getenv("DATA_PATH", None)] is the argument. *)
Definition load_agent (DATA_PATH : option string) : outcome agent :=
  init DATA_PATH.

(** ** app.py: the query widgets *)

Definition example_queries : list string :=
  [ "Where can I find a toilet near Arjun Nagar?";
    "I need a washroom near Connaught Place";
    "Public toilet close to Hauz Khas please";
    "Washroom near Lajpat Nagar" ].

(** [example_queries[i]] for the indices the page uses (0 to 3). *)
Definition example_query (i : nat) : string := nth i example_queries "".

(** The values of [query] and [search_button] after the widgets, from what
    the text input and the five buttons returned. *)
Definition select_query (text : string) (search pressed0 pressed1 pressed2 pressed3 : bool)
    : string * bool :=
  let st := (text, search) in
  let st := if pressed0 then (example_query 0, true) else st in
  let st := if pressed1 then (example_query 1, true) else st in
  let st := if pressed2 then (example_query 2, true) else st in
  let st := if pressed3 then (example_query 3, true) else st in
  st.

(** ** app.py: the results *)

(** The map built in [with col_map:]. *)
Definition result_map (result : gmap string pyval) : emitting st_call folium_Map :=
  lat ← subscript result "stop_lat";
  lon ← subscript result "stop_lon";
  let m := {| map_location := [lat; lon]; map_zoom_start := 16; map_children := [] |} in
  lat ← subscript result "stop_lat";
  lon ← subscript result "stop_lon";
  name ← subscript result "stop_name";
  tip ← subscript result "stop_name";
  let stop_marker :=
    folium_Marker [lat; lon] ("Bus Stand: " +:+ py_str name) tip
      {| icon_color := "blue"; icon_name := "bus"; icon_prefix := "fa" |} in
  wlat ← subscript result "washroom_lat";
  wlon ← subscript result "washroom_lon";
  address ← subscript result "washroom_address";
  let toilet_marker :=
    folium_Marker [wlat; wlon] ("Toilet: " +:+ py_str address) (PyStr "Public Toilet")
      {| icon_color := "green"; icon_name := "toilet"; icon_prefix := "fa" |} in
  lat ← subscript result "stop_lat";
  lon ← subscript result "stop_lon";
  wlat ← subscript result "washroom_lat";
  wlon ← subscript result "washroom_lon";
  let line :=
    folium_PolyLine [[lat; lon]; [wlat; wlon]] "blue" 2 (num_literal "0.7") "5" in
  mret {| map_location := map_location m; map_zoom_start := map_zoom_start m;
          map_children := [stop_marker; toilet_marker; line] |}.

(** The branch [if result['success']: ... else: ...]. *)
Definition show_result (result : gmap string pyval) : emitting st_call unit :=
  success ← subscript result "success";
  if py_truth success then
    emit (st_markdown "<div class='result-area success-area'>" true);;
    emit (st_markdown "### üöΩ Found a Public Toilet!" false);;
    message ← subscript result "message";
    emit (st_markdown (py_str message) false);;
    emit (st_columns [1; 1]);;
    within 0 (
      emit (st_markdown "#### Toilet Details" false);;
      name ← subscript result "stop_name";
      emit (st_markdown ("**Bus Stand:** " +:+ py_str name) false);;
      wid ← subscript result "washroom_id";
      emit (st_markdown ("**Toilet ID:** " +:+ py_str wid) false);;
      address ← subscript result "washroom_address";
      emit (st_markdown ("**Location:** " +:+ py_str address) false);;
      dist ← subscript result "distance";
      emit (st_markdown ("**Distance:** " +:+ py_str dist +:+ " meters") false);;
      link ← subscript result "directions_link";
      emit (st_markdown ("[Get Directions on Google Maps](" +:+ py_str link +:+ ")") false));;
    within 1 (
      m ← result_map result;
      emit (st_markdown "<div class='map-container'>" true);;
      emit (st_folium_static m);;
      emit (st_markdown "</div>" true));;
    emit (st_markdown "</div>" true)
  else
    emit (st_markdown "<div class='result-area error-area'>" true);;
    emit (st_markdown "### üòï No Results Found" false);;
    message ← subscript result "message";
    emit (st_markdown (py_str message) false);;
    emit (st_markdown "Try refining your query by mentioning a specific bus stand or area. You can also try one of the example queries provided." false);;
    emit (st_markdown "</div>" true).

(** The part of the page under [if search_button and query:], with the
    agent after it. *)
Definition results_section (search_button : bool) (query : string) (self : agent)
    : emitting st_call unit * agent :=
  if search_button && truthy (Some query) then
    match process_query query self with
    | (Return result, self') =>
        (emit (st_markdown "<h2 class='sub-header'>Results</h2>" true);;
         emit (st_spinner "Searching for the nearest toilet...");;
         show_result result, self')
    | (Raise e, self') =>
        (emit (st_markdown "<h2 class='sub-header'>Results</h2>" true);;
         emit (st_spinner "Searching for the nearest toilet...");;
         fail (AgentError e), self')
    end
  else (mret (), self).

(** ** Agent.py: the loop under [if __name__ == "__main__":] *)

Definition demo_queries : list string :=
  [ "Where can I find a toilet near Arjun Nagar?";
    "I need a washroom near Connaught Place";
    "Public toilet close to Hauz Khas please";
    "Where is the nearest washroom from Karol Bagh bus stand?";
    "I'm at Lajpat Nagar, need a toilet urgently" ].

(** The lines the loop prints for [queries]. *)
Fixpoint demo_loop (queries : list string) (self : agent) : emitting string unit :=
  match queries with
  | [] => mret ()
  | query :: rest =>
      match process_query query self with
      | (Raise e, _) => fail (AgentError e)
      | (Return result, self') =>
          emit ("Query: " +:+ query);;
          message ← subscript result "message";
          emit ("Response: " +:+ py_str message);;
          success ← subscript result "success";
          (if py_truth success then
             link ← subscript result "directions_link";
             emit ("Directions: " +:+ py_str link)
           else mret ());;
          emit "---";;
          demo_loop rest self'
      end
  end.

Definition main : emitting string unit :=
  match init None with
  | Return agent => demo_loop demo_queries agent
  | Raise e => fail (AgentError e)
  end.

End Callers.

(** * A concrete instance of the third-party functions

    Stand-ins that compute: plain ASCII string methods, a whitespace
    tokenizer, a short stop-word list, containment-based similarity scores
    and a two-entry gazetteer for the entity recogniser.  They are used to
    run the agent on concrete queries. *)

Module Demo.

Definition lower_ascii (c : ascii) : ascii :=
  let n := nat_of_ascii c in
  if ((65 <=? n) && (n <=? 90))%nat then ascii_of_nat (n + 32) else c.

Fixpoint lower_string (s : string) : string :=
  match s with
  | EmptyString => EmptyString
  | String c s' => String (lower_ascii c) (lower_string s')
  end.

Definition is_letter (c : ascii) : bool :=
  let n := nat_of_ascii c in
  (((65 <=? n) && (n <=? 90)) || ((97 <=? n) && (n <=? 122)))%nat.

Fixpoint all_letters (s : string) : bool :=
  match s with
  | EmptyString => true
  | String c s' => is_letter c && all_letters s'
  end.

Definition isalpha_string (s : string) : bool :=
  match s with
  | EmptyString => false
  | _ => all_letters s
  end.

(** Tokens are the maximal runs of characters other than the space. *)
Fixpoint split_spaces (cur : string) (s : string) : list string :=
  match s with
  | EmptyString => match cur with EmptyString => [] | _ => [cur] end
  | String c s' =>
      if Ascii.eqb c " "%char
      then match cur with
           | EmptyString => split_spaces EmptyString s'
           | _ => cur :: split_spaces EmptyString s'
           end
      else split_spaces (cur +:+ String c EmptyString) s'
  end.

(** [occurs s t]: [s] is a contiguous part of [t]. *)
Fixpoint occurs (s t : string) : bool :=
  String.prefix s t ||
  match t with
  | EmptyString => false
  | String _ t' => occurs s t'
  end.

Definition contained (s1 s2 : string) : bool :=
  if (String.length s1 <=? String.length s2)%nat then occurs s1 s2 else occurs s2 s1.

(** 100 for equal strings, 0 when one is empty, 100 when the shorter
    occurs in the longer, 0 otherwise. *)
Definition containment_ratio (s1 s2 : string) : Z :=
  if String.eqb s1 s2 then 100
  else match s1, s2 with
       | EmptyString, _ | _, EmptyString => 0
       | _, _ => if contained s1 s2 then 100 else 0
       end.

(** The score of a choice: 100 for equality up to case, 90 for
    containment, 0 otherwise. *)
Definition weighted_ratio (s1 s2 : string) : Z :=
  let p1 := lower_string s1 in
  let p2 := lower_string s2 in
  if String.eqb p1 p2 then 100
  else match p1, p2 with
       | EmptyString, _ | _, EmptyString => 0
       | _, _ => if contained p1 p2 then 90 else 0
       end.

(** The first choice of maximal score, [None] without choices. *)
Fixpoint best_choice (query : string) (choices : list string) : option (string * Z) :=
  match choices with
  | [] => None
  | c :: rest =>
      let sc := weighted_ratio query c in
      match best_choice query rest with
      | Some (c', sc') => if sc' <=? sc then Some (c, sc) else Some (c', sc')
      | None => Some (c, sc)
      end
  end.

Definition gazetteer (query : string) : list (string * string) :=
  if occurs "Connaught Place" query then [("Connaught Place", "GPE")]
  else if occurs "Delhi" query then [("Delhi", "GPE")]
  else [].

Definition stop_word_list : list string :=
  ["i"; "me"; "my"; "we"; "you"; "it"; "the"; "a"; "an"; "is"; "am"; "are";
   "at"; "to"; "from"; "in"; "on"; "of"; "for"; "where"; "can"; "need"].

Definition stop_tuple : Type :=
  string * string * string * string * string * string * string * string * string.

(** The files the reader knows: two stops of one area, a frame that lists
    one stop twice, and a frame without rows. *)
Definition csv_files (path : string) : outcome (list stop_tuple) :=
  if String.eqb path "sectors.csv" then
    Return [ ("BS062", "28.6270", "77.3700", "Sector 62", "PTU-62_001",
              "28.6275", "77.3705", "90", "Sector 62 Metro Gate 2");
             ("BS018", "28.5700", "77.3200", "Sector 18", "PTU-18_001",
              "28.5705", "77.3205", "60", "Sector 18 Market") ]
  else if String.eqb path "empty.csv" then Return []
  else Raise IOError.

Definition externals : Externals :=
  {| num := string;
     py_format := λ x, x;
     num_literal := λ x, x;
     read_csv_rows := csv_files;
     nlp_ents := gazetteer;
     lower := lower_string;
     isalpha := isalpha_string;
     word_tokenize := split_spaces EmptyString;
     stopwords_english := stop_word_list;
     partial_ratio := containment_ratio;
     extractOne := best_choice |}.

End Demo.

(** * Vocabulary of the statements *)

Section Vocabulary.
Context `{E : Externals}.

(** The value [extract_location] computes in its fuzzy fallback. *)
Definition fallback_value (query : string) (names : list string) : option string :=
  let best_match := (fuzzy_loop (filtered_tokens query) names).1 in
  if truthy best_match then best_match else None.

(** The value [extract_location] returns. *)
Definition located (query : string) (self : agent) : option string :=
  match ner_locations query with
  | [] => fallback_value query (stop_names self)
  | l :: _ => Some l
  end.

(** The directions link of a [toilet_info] dict. *)
Definition maps_link_of (info : toilet_info) : string :=
  "https://www.google.com/maps/dir/?api=1&origin=" +:+ py_format (ti_stop_lat info)
  +:+ "," +:+ py_format (ti_stop_lon info)
  +:+ "&destination=" +:+ py_format (ti_washroom_lat info)
  +:+ "," +:+ py_format (ti_washroom_lon info) +:+ "&travelmode=walking".

(** The score the loop gives a stop name. *)
Definition stop_score (filtered : string) (stop : string) : Z :=
  partial_ratio filtered (lower stop).

(** What the loop state records about the names already visited. *)
Definition loop_inv (filtered : string) (names : list string) (st : option string * Z)
    : Prop :=
  match st.1 with
  | None => st.2 = 0 ∧ ∀ x, x ∈ names → stop_score filtered x ≤ 70
  | Some best =>
      st.2 = stop_score filtered best ∧ 70 < stop_score filtered best ∧
      ∃ before after : list string, names = (before ++ best :: after)%list ∧
        (∀ x, x ∈ before → stop_score filtered x < stop_score filtered best) ∧
        (∀ x, x ∈ after → stop_score filtered x ≤ stop_score filtered best)
  end.

(** The keys of a failure and of a success response. *)
Definition failure_keys : gset string := {[ "success"; "message" ]}.

Definition success_keys : gset string :=
  {[ "success"; "stop_name"; "stop_lat"; "stop_lon"; "washroom_id";
     "washroom_lat"; "washroom_lon"; "washroom_address"; "distance";
     "directions_link"; "message" ]}.

(** [resp] is a success response carrying the values of [row]. *)
Definition reports_row (resp : gmap string pyval) (row : Row) : Prop :=
  resp !! "success" = Some (PyBool true) ∧
  resp !! "stop_name" = Some (PyStr (stop_name row)) ∧
  resp !! "stop_lat" = Some (PyNum (stop_lat row)) ∧
  resp !! "stop_lon" = Some (PyNum (stop_lon row)) ∧
  resp !! "washroom_id" = Some (PyStr (nearest_washroom_id row)) ∧
  resp !! "washroom_lat" = Some (PyNum (washroom_latitude row)) ∧
  resp !! "washroom_lon" = Some (PyNum (washroom_longitude row)) ∧
  resp !! "washroom_address" = Some (PyStr (washroom_address row)) ∧
  resp !! "distance" = Some (PyNum (distance row)).

(** What [process.extractOne] with its default cut-off of 0 does for the
    scorer [scorer]: on a non-empty list it returns a choice of highest
    score together with that score, a number from 0 to 100; on an empty
    list it returns [None]. *)
Definition extractOne_best_match (scorer : string → string → Z) : Prop :=
  ∀ (query : string) (choices : list string),
    match extractOne query choices with
    | None => choices = []
    | Some (choice, score) =>
        choice ∈ choices ∧ score = scorer query choice ∧ 0 ≤ score ≤ 100 ∧
        ∀ c, c ∈ choices → scorer query c ≤ score
    end.

(** [row] is the first row of [rows] whose stop name is [name]. *)
Definition first_row_named (name : string) (rows : list Row) (row : Row) : Prop :=
  ∃ before after : list Row,
    rows = (before ++ row :: after)%list ∧ stop_name row = name ∧
    ∀ r, r ∈ before → stop_name r ≠ name.

(** The walking-directions URL from the stop of [row] to its washroom. *)
Definition row_link (row : Row) : string :=
  "https://www.google.com/maps/dir/?api=1&origin=" +:+ py_format (stop_lat row)
  +:+ "," +:+ py_format (stop_lon row)
  +:+ "&destination=" +:+ py_format (washroom_latitude row)
  +:+ "," +:+ py_format (washroom_longitude row) +:+ "&travelmode=walking".

(** [resp] is the success response for [row]: its eight fields are the
    values of [row] and its link leads from the stop to the washroom. *)
Definition answers_with_row (resp : gmap string pyval) (row : Row) : Prop :=
  reports_row resp row ∧ resp !! "directions_link" = Some (PyStr (row_link row)).

End Vocabulary.

(** * Concrete frames *)

(** The agent over the sample frame, with the concrete third-party
    functions. *)
Definition sample_agent : agent (E := Demo.externals) :=
  agent_of_df (E := Demo.externals) sample_df.

(** Two rows of one stop name that differ in the washroom. *)
Definition town_hall_first `{E : Externals} : Row :=
  row_of_tuple ("BS010", num_literal "28.6500", num_literal "77.2300", "Town Hall",
                "PTU-20_001", num_literal "28.6510", num_literal "77.2310",
                num_literal "140", "Town Hall East Gate").

Definition town_hall_second `{E : Externals} : Row :=
  row_of_tuple ("BS011", num_literal "28.6500", num_literal "77.2300", "Town Hall",
                "PTU-20_002", num_literal "28.6490", num_literal "77.2290",
                num_literal "160", "Town Hall West Gate").

Definition town_hall_rows `{E : Externals} : list Row :=
  [town_hall_first; town_hall_second].

(** Two stops of one area, with different names. *)
Definition sector_62 `{E : Externals} : Row :=
  row_of_tuple ("BS062", num_literal "28.6270", num_literal "77.3700", "Sector 62",
                "PTU-62_001", num_literal "28.6275", num_literal "77.3705",
                num_literal "90", "Sector 62 Metro Gate 2").

Definition sector_18 `{E : Externals} : Row :=
  row_of_tuple ("BS018", num_literal "28.5700", num_literal "77.3200", "Sector 18",
                "PTU-18_001", num_literal "28.5705", num_literal "77.3205",
                num_literal "60", "Sector 18 Market").

Definition sector_rows `{E : Externals} : list Row := [sector_62; sector_18].

(** What the third-party functions do on the query "Sector 18" and on the
    two stop names: no LOC/GPE entity; tokens "sector" and "18", of which
    only "sector" is alphabetic and it is no stop word; "sector" occurs in
    "sector 62", which gives the partial ratio 100, the highest there is. *)
Definition sector_18_library_facts `{E : Externals} : Prop :=
  ner_locations "Sector 18" = [] ∧
  lower "Sector 18" = "sector 18" ∧
  lower "Sector 62" = "sector 62" ∧
  word_tokenize "sector 18" = ["sector"; "18"] ∧
  isalpha "sector" = true ∧
  isalpha "18" = false ∧
  ("sector" ∉ stopwords_english) ∧
  partial_ratio "sector" "sector 62" = 100 ∧
  partial_ratio "sector" "sector 18" ≤ 100.

Section ConcreteFrames.
#[local] Existing Instance Demo.externals.

(** The fifth row of the sample frame. *)
Definition hauz_khas_row : Row :=
  row_of_tuple ("BS005", "28.6529", "77.2695", "Hauz Khas", "PTU-17_005",
                "28.6539", "77.2705", "120", "Hauz Khas Village Entrance").

(** The rows of the frame read from sectors.csv. *)
Definition sector_62_row : Row :=
  row_of_tuple ("BS062", "28.6270", "77.3700", "Sector 62", "PTU-62_001",
                "28.6275", "77.3705", "90", "Sector 62 Metro Gate 2").

Definition sector_18_row : Row :=
  row_of_tuple ("BS018", "28.5700", "77.3200", "Sector 18", "PTU-18_001",
                "28.5705", "77.3205", "60", "Sector 18 Market").

(** The agent over the frame read from sectors.csv. *)
Definition sectors_agent : agent := agent_of_df [sector_62_row; sector_18_row].

(** The third row of the sample frame. *)
Definition connaught_place_row : Row :=
  row_of_tuple ("BS003", "28.6329", "77.2495", "Connaught Place", "PTU-15_003",
                "28.6339", "77.2505", "100", "Connaught Place Block A").

(** A frame with one stop, whose name contains "Delhi". *)
Definition new_delhi_row : Row :=
  row_of_tuple ("BS100", "28.6420", "77.2190", "New Delhi Station", "PTU-30_001",
                "28.6425", "77.2195", "75", "New Delhi Station Gate 1").

End ConcreteFrames.

(** [bool(x)] for the concrete numbers, which are decimal texts: zero is
    false. *)
Definition demo_num_bool (x : @num Demo.externals) : bool :=
  negb (String.eqb x "0" || String.eqb x "0.0").

(** * Properties *)

Lemma Return_inj {A : Type} (a b : A) : Return a = Return b → a = b.
Proof. intros Heq. injection Heq as Heq. exact Heq. Qed.

Lemma returned_inj {A S : Type} (a b : A) (s t : S) :
  (Return a, s) = (Return b, t) → a = b ∧ s = t.
Proof. intros Heq. injection Heq as Ha Hs. auto. Qed.

Lemma PyStr_inj `{Externals} (s t : string) : PyStr s = PyStr t → s = t.
Proof. intros Heq. injection Heq as Heq. exact Heq. Qed.

Section Properties.
Context `{E : Externals}.

(** ** Running the methods *)

Ltac run_monad :=
  cbv beta iota delta [mbind M_bind mret M_ret get_self raise] in *.

Lemma stop_info_dict_run (location : string) (self : agent) :
  stop_info_dict location self =
    match rows_named location (df self) with
    | [] => (Raise IndexError, self)
    | stop_info :: _ => (Return (Some (info_of_row stop_info)), self)
    end.
Proof.
  unfold stop_info_dict. run_monad.
  destruct (rows_named location (df self)); reflexivity.
Qed.

Lemma find_nearest_toilet_run (location : string) (self : agent) :
  find_nearest_toilet location self =
    if bool_decide (location ∈ stop_names self) then stop_info_dict location self
    else match extractOne location (stop_names self) with
         | None => (Raise TypeError, self)
         | Some (closest_stop, score) =>
             if score <? 60 then (Return None, self)
             else stop_info_dict closest_stop self
         end.
Proof.
  unfold find_nearest_toilet. run_monad.
  destruct (bool_decide _); [reflexivity|].
  destruct (extractOne _ _) as [[c sc]|]; [|reflexivity].
  destruct (sc <? 60); reflexivity.
Qed.

Lemma extract_location_fallback (query : string) (self : agent) :
  ner_locations query = [] →
  extract_location query self = (Return (fallback_value query (stop_names self)), self).
Proof.
  intros Hner. unfold extract_location, fallback_value. run_monad. rewrite Hner.
  destruct (fuzzy_loop _ _).1 as [[|c b]|]; reflexivity.
Qed.

Lemma extract_location_ner (query : string) (self : agent) (l : string) (ls : list string) :
  ner_locations query = l :: ls →
  extract_location query self = (Return (Some l), self).
Proof.
  intros Hner. unfold extract_location. run_monad. rewrite Hner. reflexivity.
Qed.

Lemma extract_location_run (query : string) (self : agent) :
  extract_location query self = (Return (located query self), self).
Proof.
  unfold located. destruct (ner_locations query) as [|l ls] eqn:Hner.
  - apply extract_location_fallback, Hner.
  - eapply extract_location_ner, Hner.
Qed.

Lemma get_google_maps_link_run (a b c d : num) (self : agent) :
  get_google_maps_link a b c d self =
    (Return ("https://www.google.com/maps/dir/?api=1&origin=" +:+ py_format a
             +:+ "," +:+ py_format b +:+ "&destination=" +:+ py_format c
             +:+ "," +:+ py_format d +:+ "&travelmode=walking"), self).
Proof. reflexivity. Qed.

Lemma process_query_run (query : string) (self : agent) :
  process_query query self =
    match located query self with
    | None | Some "" => (Return (failure_response no_location_message), self)
    | Some location =>
        match find_nearest_toilet location self with
        | (Return None, self') =>
            (Return (failure_response (no_match_message location)), self')
        | (Return (Some info), self') =>
            (Return (success_response info (maps_link_of info)), self')
        | (Raise e, self') => (Raise e, self')
        end
    end.
Proof.
  unfold process_query.
  cbv beta iota delta [mbind M_bind].
  rewrite extract_location_run.
  destruct (located query self) as [[|c location]|]; cbn [fst truthy negb default];
    try reflexivity.
  destruct (find_nearest_toilet _ self) as [[[info|]|e] self']; reflexivity.
Qed.

(** ** The fuzzy loop of [extract_location] *)

Section FuzzyLoop.
Variable filtered : string.

Lemma fuzzy_loop_snoc (names : list string) (stop : string) :
  fuzzy_loop filtered (names ++ [stop]) =
    fuzzy_step filtered (fuzzy_loop filtered names) stop.
Proof. unfold fuzzy_loop. rewrite fold_left_app. reflexivity. Qed.

Lemma fuzzy_loop_inv (names : list string) :
  loop_inv filtered names (fuzzy_loop filtered names).
Proof.
  induction names as [|stop names IH] using rev_ind.
  - split; [reflexivity|]. intros x Hx. inversion Hx.
  - rewrite fuzzy_loop_snoc.
    destruct (fuzzy_loop filtered names) as [best hs].
    unfold loop_inv, fuzzy_step in *. cbn [fst snd] in *.
    fold (stop_score filtered stop).
    destruct ((hs <? stop_score filtered stop) && (70 <? stop_score filtered stop)) eqn:Hc.
    + apply andb_true_iff in Hc as [Hhs H70].
      apply Z.ltb_lt in Hhs, H70. cbn [fst snd].
      split; [reflexivity|]. split; [assumption|].
      exists names, []. split; [reflexivity|]. split.
      * intros x Hx. destruct best as [best|].
        -- destruct IH as (-> & _ & before & after & -> & Hb & Ha).
           apply elem_of_app in Hx as [Hx|Hx]; [specialize (Hb _ Hx); lia|].
           apply elem_of_cons in Hx as [->|Hx]; [lia|].
           specialize (Ha _ Hx); lia.
        -- destruct IH as [_ IH]. specialize (IH _ Hx). lia.
      * intros x Hx. inversion Hx.
    + apply andb_false_iff in Hc.
      rewrite !Z.ltb_ge in Hc. destruct best as [best|]; cbn [fst snd].
      * destruct IH as (-> & H70 & before & after & -> & Hb & Ha).
        split; [reflexivity|]. split; [assumption|].
        exists before, (after ++ [stop])%list. split; [by rewrite <- app_assoc|].
        split; [assumption|].
        intros x Hx. apply elem_of_app in Hx as [Hx|Hx]; [by apply Ha|].
        apply list_elem_of_singleton in Hx as ->. lia.
      * destruct IH as [-> IH]. split; [reflexivity|].
        intros x Hx. apply elem_of_app in Hx as [Hx|Hx]; [by apply IH|].
        apply list_elem_of_singleton in Hx as ->. lia.
Qed.

(** Names that score no more than the current maximum leave the state. *)
Lemma fuzzy_fold_keep (names : list string) (best : option string) (hs : Z) :
  (∀ x, x ∈ names → stop_score filtered x ≤ hs ∨ stop_score filtered x ≤ 70) →
  fold_left (fuzzy_step filtered) names (best, hs) = (best, hs).
Proof.
  induction names as [|stop names IH]; intros Hle; [reflexivity|].
  cbn [fold_left]. unfold fuzzy_step at 2. cbn [fst snd].
  fold (stop_score filtered stop).
  assert (Hs : stop_score filtered stop ≤ hs ∨ stop_score filtered stop ≤ 70)
    by (apply Hle; left).
  replace ((hs <? stop_score filtered stop) && (70 <? stop_score filtered stop)) with false.
  - apply IH. intros x Hx. apply Hle. by right.
  - symmetry. apply andb_false_iff. rewrite !Z.ltb_ge. exact Hs.
Qed.

(** Names that score below [v] keep the running maximum below [v]. *)
Lemma fuzzy_fold_below (names : list string) (st : option string * Z) (v : Z) :
  st.2 < v →
  (∀ x, x ∈ names → stop_score filtered x < v) →
  (fold_left (fuzzy_step filtered) names st).2 < v.
Proof.
  revert st. induction names as [|stop names IH]; intros st Hst Hlt; [exact Hst|].
  cbn [fold_left]. apply IH.
  - unfold fuzzy_step. fold (stop_score filtered stop).
    destruct (_ && _); cbn [snd]; [apply Hlt; left|exact Hst].
  - intros x Hx. apply Hlt. by right.
Qed.

(** The loop ends with [best] exactly when [best] is the first name of
    maximal score and that score is above 70. *)
Lemma fuzzy_loop_some (names : list string) (best : string) :
  (fuzzy_loop filtered names).1 = Some best ↔
  70 < stop_score filtered best ∧
  ∃ before after : list string, names = (before ++ best :: after)%list ∧
    (∀ x, x ∈ before → stop_score filtered x < stop_score filtered best) ∧
    (∀ x, x ∈ after → stop_score filtered x ≤ stop_score filtered best).
Proof.
  split.
  - intros Hbest. pose proof (fuzzy_loop_inv names) as Hinv.
    unfold loop_inv in Hinv. rewrite Hbest in Hinv.
    destruct Hinv as (_ & H70 & Hdec). auto.
  - intros (H70 & before & after & -> & Hb & Ha).
    unfold fuzzy_loop. rewrite fold_left_app. cbn [fold_left].
    pose proof (fuzzy_fold_below before (None, 0) (stop_score filtered best)) as Hlt.
    cbn [snd] in Hlt. specialize (Hlt ltac:(lia) Hb).
    destruct (fold_left (fuzzy_step filtered) before (None, 0)) as [b0 hs0].
    cbn [snd] in Hlt. unfold fuzzy_step at 2. cbn [fst snd].
    fold (stop_score filtered best).
    replace ((hs0 <? stop_score filtered best) && (70 <? stop_score filtered best)) with true.
    + rewrite fuzzy_fold_keep; [reflexivity|]. intros x Hx. left. by apply Ha.
    + symmetry. apply andb_true_iff. rewrite !Z.ltb_lt. lia.
Qed.

(** The loop ends with no match exactly when no score is above 70. *)
Lemma fuzzy_loop_none (names : list string) :
  (fuzzy_loop filtered names).1 = None ↔
  ∀ x, x ∈ names → stop_score filtered x ≤ 70.
Proof.
  split.
  - intros Hnone. pose proof (fuzzy_loop_inv names) as Hinv.
    unfold loop_inv in Hinv. rewrite Hnone in Hinv. apply Hinv.
  - intros Hle. unfold fuzzy_loop. rewrite fuzzy_fold_keep; [reflexivity|].
    intros x Hx. right. by apply Hle.
Qed.

(** The match of the loop is one of the names. *)
Lemma fuzzy_loop_elem (names : list string) (best : string) :
  (fuzzy_loop filtered names).1 = Some best → best ∈ names.
Proof.
  intros Hbest. apply fuzzy_loop_some in Hbest as (_ & before & after & -> & _).
  apply elem_of_app. right. left.
Qed.
End FuzzyLoop.

(** ** The response dicts *)

Lemma failure_response_success (message : string) :
  failure_response message !! "success" = Some (PyBool false).
Proof. reflexivity. Qed.

Lemma failure_response_message (message : string) :
  failure_response message !! "message" = Some (PyStr message).
Proof. reflexivity. Qed.

Lemma failure_response_dom (message : string) :
  dom (failure_response message) = failure_keys.
Proof.
  unfold failure_response, failure_keys.
  rewrite !dom_insert_L, dom_empty_L. set_solver.
Qed.

Lemma success_response_success (info : toilet_info) (link : string) :
  success_response info link !! "success" = Some (PyBool true).
Proof. reflexivity. Qed.

Lemma success_response_dom (info : toilet_info) (link : string) :
  dom (success_response info link) = success_keys.
Proof.
  unfold success_response, success_keys.
  rewrite !dom_insert_L, dom_empty_L. set_solver.
Qed.

Lemma failure_response_inj (m1 m2 : string) :
  failure_response m1 = failure_response m2 → m1 = m2.
Proof.
  intros Heq. apply (f_equal (λ d, d !! "message")) in Heq.
  rewrite !failure_response_message in Heq. congruence.
Qed.

Lemma success_not_failure (info : toilet_info) (link message : string) :
  success_response info link ≠ failure_response message.
Proof.
  intros Heq. apply (f_equal (λ d, d !! "success")) in Heq.
  rewrite success_response_success, failure_response_success in Heq.
  discriminate.
Qed.

Lemma no_location_not_no_match (location : string) :
  no_location_message ≠ no_match_message location.
Proof. unfold no_location_message, no_match_message. cbn. discriminate. Qed.

(** ** Row selection *)

Lemma rows_named_head (location : string) (rows : list Row) (row : Row) :
  head (rows_named location rows) = Some row →
  row ∈ rows ∧ stop_name row = location.
Proof.
  intros Hhead. apply head_Some_elem_of in Hhead.
  unfold rows_named in Hhead. apply list_elem_of_filter in Hhead.
  destruct Hhead; auto.
Qed.

Lemma rows_named_known (location : string) (rows : list Row) :
  location ∈ stop_name <$> rows →
  ∃ row, head (rows_named location rows) = Some row.
Proof.
  intros Hin. apply list_elem_of_fmap in Hin as (row & -> & Hrow).
  destruct (rows_named (stop_name row) rows) as [|r0 sel] eqn:Hsel.
  - assert (Hmem : row ∈ rows_named (stop_name row) rows)
      by (unfold rows_named; apply list_elem_of_filter; auto).
    rewrite Hsel in Hmem. inversion Hmem.
  - exists r0. reflexivity.
Qed.

(** With unique stop names every row is the first row of its name. *)
Lemma rows_named_unique (rows : list Row) (row : Row) :
  NoDup (stop_name <$> rows) → row ∈ rows →
  head (rows_named (stop_name row) rows) = Some row.
Proof.
  induction rows as [|r0 rows IH]; intros Hnd Hin; [inversion Hin|].
  rewrite fmap_cons in Hnd. apply NoDup_cons in Hnd as [Hfresh Hnd].
  unfold rows_named. rewrite filter_cons.
  apply elem_of_cons in Hin as [->|Hin].
  - rewrite decide_True by reflexivity. reflexivity.
  - rewrite decide_False.
    + apply IH; assumption.
    + intros Heq. apply Hfresh. rewrite Heq.
      apply list_elem_of_fmap. eauto.
Qed.

Lemma stop_info_dict_head (location : string) (self : agent) (row : Row) :
  head (rows_named location (df self)) = Some row →
  stop_info_dict location self = (Return (Some (info_of_row row)), self).
Proof.
  intros Hhead. rewrite stop_info_dict_run.
  destruct (rows_named location (df self)); [discriminate|].
  cbn in Hhead. congruence.
Qed.

(** [stop_info_dict] never returns [None]. *)
Lemma stop_info_dict_not_none (location : string) (self self' : agent) :
  stop_info_dict location self ≠ (Return None, self').
Proof.
  rewrite stop_info_dict_run.
  destruct (rows_named location (df self)); discriminate.
Qed.

(** ** State of the agent *)

Lemma stop_info_dict_state (location : string) (self : agent) :
  (stop_info_dict location self).2 = self.
Proof.
  rewrite stop_info_dict_run. destruct (rows_named location (df self)); reflexivity.
Qed.

Lemma find_nearest_toilet_state (location : string) (self : agent) :
  (find_nearest_toilet location self).2 = self.
Proof.
  rewrite find_nearest_toilet_run.
  destruct (bool_decide _); [apply stop_info_dict_state|].
  destruct (extractOne _ _) as [[closest score]|]; [|reflexivity].
  destruct (score <? 60); [reflexivity|apply stop_info_dict_state].
Qed.

Lemma process_query_state (query : string) (self : agent) :
  (process_query query self).2 = self.
Proof.
  rewrite process_query_run.
  destruct (located query self) as [[|c location]|]; try reflexivity.
  pose proof (find_nearest_toilet_state (String c location) self) as Hst.
  destruct (find_nearest_toilet _ self) as [[[info|]|e] self']; exact Hst.
Qed.

(** C9. The frame and the stop-name list are set by [__init__]
    ([stop_names] is the [stop_name] column of [df]), and none of
    [extract_location], [find_nearest_toilet], [get_google_maps_link] and
    [process_query] changes the agent, whatever the input and whether the
    call returns or raises. *)
Theorem C9_reference_table_never_mutated :
  (∀ data_path : option string,
     match init data_path with
     | Return self => stop_names self = stop_name <$> df self
     | Raise _ => True
     end) ∧
  (∀ self : agent,
     (∀ query, (extract_location query self).2 = self) ∧
     (∀ location, (find_nearest_toilet location self).2 = self) ∧
     (∀ from_lat from_lon to_lat to_lon,
        (get_google_maps_link from_lat from_lon to_lat to_lon self).2 = self) ∧
     (∀ query, (process_query query self).2 = self)).
Proof.
  split.
  - intros data_path. unfold init.
    destruct (truthy data_path); [|reflexivity].
    destruct (read_csv_rows _); [reflexivity|exact I].
  - intros self. split; [|split; [|split]].
    + intros query. rewrite extract_location_run. reflexivity.
    + intros location. apply find_nearest_toilet_state.
    + reflexivity.
    + intros query. apply process_query_state.
Qed.

(** C6. Running [process_query] a second time on the same query, on the
    agent the first run left behind, gives the same outcome (the same
    response dict, or the same exception), and both runs leave the agent
    as it was. *)
Theorem C6_process_query_deterministic (query : string) (self : agent) :
  let first := process_query query self in
  let second := process_query query first.2 in
  second.1 = first.1 ∧ first.2 = self ∧ second.2 = self.
Proof.
  cbv zeta. rewrite !process_query_state. auto.
Qed.

(** ** Failures *)


(** C4. In the fuzzy fallback (no LOC/GPE entity), over a stop list
    without the empty name: [extract_location] returns a stop name exactly
    when that name is the first one of maximal partial-ratio score against
    the filtered query and this maximum is above 70; it returns [None]
    exactly when no score is above 70. *)
Theorem C4_fuzzy_fallback (query : string) (self : agent) :
  ner_locations query = [] →
  "" ∉ stop_names self →
  let score := λ stop, partial_ratio (filtered_tokens query) (lower stop) in
  (∀ best : string,
     extract_location query self = (Return (Some best), self) ↔
     70 < score best ∧
     ∃ before after : list string,
       stop_names self = (before ++ best :: after)%list ∧
       (∀ x, x ∈ before → score x < score best) ∧
       (∀ x, x ∈ after → score x ≤ score best)) ∧
  (extract_location query self = (Return None, self) ↔
     ∀ x, x ∈ stop_names self → score x ≤ 70).
Proof.
  intros Hner Hempty score.
  rewrite (extract_location_fallback _ _ Hner). unfold fallback_value.
  pose proof (fuzzy_loop_some (filtered_tokens query) (stop_names self)) as Hsome.
  pose proof (fuzzy_loop_none (filtered_tokens query) (stop_names self)) as Hnone.
  pose proof (fuzzy_loop_elem (filtered_tokens query) (stop_names self)) as Helem.
  fold (stop_score (filtered_tokens query)) in score. subst score.
  destruct (fuzzy_loop (filtered_tokens query) (stop_names self)).1
    as [match_|] eqn:Hloop.
  - assert (Htruthy : truthy (Some match_) = true).
    { destruct match_; [|reflexivity]. exfalso. apply Hempty, Helem. reflexivity. }
    rewrite Htruthy. split.
    + intros best. rewrite <- Hsome. split; congruence.
    + rewrite <- Hnone. split; discriminate.
  - cbn [truthy]. split.
    + intros best. rewrite <- Hsome. split; discriminate.
    + rewrite <- Hnone. split; reflexivity.
Qed.

(** The value of the fallback is a name of the stop list. *)
Lemma fallback_value_elem (query : string) (names : list string) (name : string) :
  fallback_value query names = Some name → name ∈ names ∧ name ≠ "".
Proof.
  unfold fallback_value. intros Hval.
  destruct (fuzzy_loop (filtered_tokens query) names).1 as [[|c m]|] eqn:Hloop;
    cbn [truthy] in Hval; try discriminate.
  injection Hval as <-. split; [|discriminate].
  eapply fuzzy_loop_elem, Hloop.
Qed.

Lemma find_nearest_toilet_known (location : string) (self : agent) :
  location ∈ stop_names self →
  find_nearest_toilet location self = stop_info_dict location self.
Proof.
  intros Hin. rewrite find_nearest_toilet_run.
  rewrite bool_decide_eq_true_2 by exact Hin. reflexivity.
Qed.

(** C10. When the recogniser finds no LOC/GPE entity, a name returned by
    [extract_location] is one of [stop_names]; [find_nearest_toilet] then
    takes the branch of the exact match (the row selection on that very
    name, without a call of [extractOne]), and [process_query] does not
    return the "couldn't find a bus stand matching" failure for any name. *)
Theorem C10_fallback_name_is_known_stop (query : string) (self : agent) :
  ner_locations query = [] →
  (∀ name : string,
     extract_location query self = (Return (Some name), self) →
     name ∈ stop_names self ∧
     find_nearest_toilet name self = stop_info_dict name self) ∧
  (∀ name : string,
     (process_query query self).1 ≠
       Return (failure_response (no_match_message name))).
Proof.
  intros Hner. split.
  - intros name Hret. rewrite (extract_location_fallback _ _ Hner) in Hret.
    injection Hret as Hval. apply fallback_value_elem in Hval as [Hin _].
    split; [exact Hin|]. apply find_nearest_toilet_known, Hin.
  - intros name. rewrite process_query_run. unfold located. rewrite Hner.
    destruct (fallback_value query (stop_names self)) as [found|] eqn:Hval.
    + apply fallback_value_elem in Hval as [Hin Hne].
      destruct found as [|c found]; [congruence|].
      rewrite (find_nearest_toilet_known _ _ Hin), stop_info_dict_run.
      destruct (rows_named _ (df self)); cbn [fst]; [discriminate|].
      intros Heq. apply Return_inj in Heq. eapply success_not_failure, Heq.
    + cbn [fst]. intros Heq. apply Return_inj in Heq.
      apply failure_response_inj in Heq.
      eapply no_location_not_no_match, Heq.
Qed.



(** ** Successful resolutions *)

(** A record returned by [find_nearest_toilet] is the dict of the first
    row of some stop name. *)
Lemma find_nearest_toilet_first (location : string) (self self' : agent)
    (info : toilet_info) :
  find_nearest_toilet location self = (Return (Some info), self') →
  ∃ matched row,
    head (rows_named matched (df self)) = Some row ∧ info = info_of_row row.
Proof.
  rewrite find_nearest_toilet_run.
  assert (Hdict : ∀ l, stop_info_dict l self = (Return (Some info), self') →
            ∃ matched row,
              head (rows_named matched (df self)) = Some row ∧
              info = info_of_row row).
  { intros l. rewrite stop_info_dict_run.
    destruct (rows_named l (df self)) as [|row sel] eqn:Hsel; [discriminate|].
    intros Heq. apply returned_inj in Heq as [Heq _].
    exists l, row. rewrite Hsel. split; [reflexivity|congruence]. }
  destruct (bool_decide _); [apply Hdict|].
  destruct (extractOne _ _) as [[closest score]|]; [|discriminate].
  destruct (score <? 60); [discriminate|apply Hdict].
Qed.

Lemma find_nearest_toilet_row (location : string) (self self' : agent)
    (info : toilet_info) :
  find_nearest_toilet location self = (Return (Some info), self') →
  ∃ row, row ∈ df self ∧ info = info_of_row row.
Proof.
  intros Hfind. apply find_nearest_toilet_first in Hfind as (l & row & Hhead & ->).
  exists row. split; [|reflexivity]. eapply rows_named_head, Hhead.
Qed.

Lemma success_response_reports (row : Row) (link : string) :
  reports_row (success_response (info_of_row row) link) row.
Proof. repeat split; reflexivity. Qed.

(** The first row of a frame answers for every later row of its name. *)
Lemma rows_named_first (location : string) (first row : Row) (rest : list Row) :
  head (rows_named location (first :: rest)) = Some row →
  stop_name first = stop_name row → row = first.
Proof.
  intros Hhead Hsame.
  pose proof (rows_named_head _ _ _ Hhead) as [_ Hname].
  unfold rows_named in Hhead. rewrite filter_cons in Hhead.
  rewrite decide_True in Hhead by congruence.
  cbn in Hhead. congruence.
Qed.

(** C2. A response with [success = True] carries the coordinates of one
    row of the frame, and its [directions_link] is the fixed URL with that
    row's stop coordinates as origin, its washroom coordinates as
    destination, and [travelmode=walking]. *)
Theorem C2_directions_link (query : string) (self self' : agent)
    (resp : gmap string pyval) :
  process_query query self = (Return resp, self') →
  resp !! "success" = Some (PyBool true) →
  ∃ row, row ∈ df self ∧
    resp !! "stop_name" = Some (PyStr (stop_name row)) ∧
    resp !! "stop_lat" = Some (PyNum (stop_lat row)) ∧
    resp !! "stop_lon" = Some (PyNum (stop_lon row)) ∧
    resp !! "washroom_lat" = Some (PyNum (washroom_latitude row)) ∧
    resp !! "washroom_lon" = Some (PyNum (washroom_longitude row)) ∧
    resp !! "directions_link" = Some (PyStr (
      "https://www.google.com/maps/dir/?api=1&origin=" +:+ py_format (stop_lat row)
      +:+ "," +:+ py_format (stop_lon row)
      +:+ "&destination=" +:+ py_format (washroom_latitude row)
      +:+ "," +:+ py_format (washroom_longitude row)
      +:+ "&travelmode=walking")).
Proof.
  rewrite process_query_run. intros Hrun Hsuccess.
  destruct (located query self) as [[|c location]|].
  - apply returned_inj in Hrun as [<- _]. discriminate.
  - destruct (find_nearest_toilet (String c location) self)
      as [[[info|]|e] self2] eqn:Hfind; [| |discriminate].
    + apply returned_inj in Hrun as [<- _].
      apply find_nearest_toilet_row in Hfind as (row & Hrow & ->).
      exists row. split; [exact Hrow|]. repeat split; reflexivity.
    + apply returned_inj in Hrun as [<- _]. discriminate.
  - apply returned_inj in Hrun as [<- _]. discriminate.
Qed.

(** ** Matching a name to a stop *)

(** With no stop names at all and an [extractOne] that returns [None] for
    an empty list, [find_nearest_toilet] raises on unpacking. *)
Lemma find_nearest_toilet_no_stops (location : string) :
  extractOne location [] = None →
  find_nearest_toilet location (agent_of_df []) = (Raise TypeError, agent_of_df []).
Proof.
  intros Hnone. rewrite find_nearest_toilet_run.
  cbn [agent_of_df stop_names fmap list_fmap].
  rewrite bool_decide_eq_false_2 by (intros Hin; inversion Hin).
  rewrite Hnone. reflexivity.
Qed.

(** C7 (amended). A response returned by [process_query] is a dict of one
    of two shapes.  A failure has exactly the keys [success] (False) and
    [message] (a string), and no key for a record or a link.  A success
    has exactly the keys [success] (True), [message], the eight flat
    fields of the record, and [directions_link] (a string). *)
Theorem C7_response_shape (query : string) (self self' : agent)
    (resp : gmap string pyval) :
  process_query query self = (Return resp, self') →
  (resp !! "success" = Some (PyBool false) ∧
   (∃ message, resp !! "message" = Some (PyStr message)) ∧
   dom resp = failure_keys) ∨
  (resp !! "success" = Some (PyBool true) ∧
   (∃ message, resp !! "message" = Some (PyStr message)) ∧
   (∃ link, resp !! "directions_link" = Some (PyStr link)) ∧
   (∃ info, resp = success_response info (maps_link_of info)) ∧
   dom resp = success_keys).
Proof.
  rewrite process_query_run. intros Hrun.
  assert (Hfail : ∀ m, resp = failure_response m →
            resp !! "success" = Some (PyBool false) ∧
            (∃ message, resp !! "message" = Some (PyStr message)) ∧
            dom resp = failure_keys).
  { intros m ->. split; [reflexivity|]. split; [eexists; reflexivity|].
    apply failure_response_dom. }
  destruct (located query self) as [[|c location]|].
  - apply returned_inj in Hrun as [<- _]. left. eapply Hfail. reflexivity.
  - destruct (find_nearest_toilet (String c location) self)
      as [[[info|]|e] self2]; [| |discriminate].
    + apply returned_inj in Hrun as [<- _]. right.
      split; [reflexivity|]. split; [eexists; reflexivity|].
      split; [eexists; reflexivity|]. split; [eexists; reflexivity|].
      apply success_response_dom.
    + apply returned_inj in Hrun as [<- _]. left. eapply Hfail. reflexivity.
  - apply returned_inj in Hrun as [<- _]. left. eapply Hfail. reflexivity.
Qed.

End Properties.

(** * Runs on concrete frames *)

Section ConcreteRuns.
#[local] Existing Instance Demo.externals.

Lemma best_choice_best_match : extractOne_best_match Demo.weighted_ratio.
Proof.
  assert (Hrange : ∀ q c, 0 ≤ Demo.weighted_ratio q c ≤ 100).
  { intros q c. unfold Demo.weighted_ratio.
    destruct (String.eqb _ _); [lia|].
    destruct (Demo.lower_string q); [lia|].
    destruct (Demo.lower_string c); [lia|].
    destruct (Demo.contained _ _); lia. }
  intros query choices. cbn [extractOne Demo.externals].
  induction choices as [|c rest IH]; [reflexivity|].
  cbn [Demo.best_choice].
  destruct (Demo.best_choice query rest) as [[c' sc']|].
  - destruct IH as (Hin & Hsc & Hr & Hmax).
    destruct (Z.leb_spec sc' (Demo.weighted_ratio query c)) as [Hle|Hgt].
    + split; [left|]. split; [reflexivity|]. split; [apply Hrange|].
      intros x Hx. apply elem_of_cons in Hx as [->|Hx]; [lia|].
      specialize (Hmax _ Hx). lia.
    + split; [by right|]. split; [exact Hsc|]. split; [exact Hr|].
      intros x Hx. apply elem_of_cons in Hx as [->|Hx]; [lia|].
      by apply Hmax.
  - subst rest. split; [left|]. split; [reflexivity|]. split; [apply Hrange|].
    intros x Hx. apply list_elem_of_singleton in Hx as ->. lia.
Qed.

Lemma sample_stop_names :
  stop_names sample_agent =
    ["Arjun Nagar"; "Karol Bagh"; "Connaught Place"; "Lajpat Nagar"; "Hauz Khas"].
Proof. reflexivity. Qed.


(** The query "I need a washroom near Connaught Place" succeeds, and its
    link leads from the stop to the washroom of one row. *)
Lemma C2_directions_link_witness :
  ∃ resp,
    process_query "I need a washroom near Connaught Place" sample_agent =
      (Return resp, sample_agent) ∧
    resp !! "success" = Some (PyBool true) ∧
    ∃ row, row ∈ df sample_agent ∧
      resp !! "directions_link" = Some (PyStr (
        "https://www.google.com/maps/dir/?api=1&origin=" +:+ py_format (stop_lat row)
        +:+ "," +:+ py_format (stop_lon row)
        +:+ "&destination=" +:+ py_format (washroom_latitude row)
        +:+ "," +:+ py_format (washroom_longitude row)
        +:+ "&travelmode=walking")).
Proof.
  exists (success_response (info_of_row connaught_place_row)
            (maps_link_of (info_of_row connaught_place_row))).
  split; [reflexivity|]. split; [reflexivity|].
  destruct (C2_directions_link "I need a washroom near Connaught Place"
              sample_agent sample_agent
              (success_response (info_of_row connaught_place_row)
                 (maps_link_of (info_of_row connaught_place_row))))
    as (row & Hin & _ & _ & _ & _ & _ & Hlink); [reflexivity|reflexivity|].
  exists row. split; [exact Hin|exact Hlink].
Defined.

(** The link of that query, written out. *)
Example connaught_place_link :
  ∃ resp,
    process_query "I need a washroom near Connaught Place" sample_agent =
      (Return resp, sample_agent) ∧
    resp !! "directions_link" = Some (PyStr
      "https://www.google.com/maps/dir/?api=1&origin=28.6329,77.2495&destination=28.6339,77.2505&travelmode=walking") ∧
    resp !! "washroom_address" = Some (PyStr "Connaught Place Block A") ∧
    resp !! "distance" = Some (PyNum "100").
Proof.
  exists (success_response (info_of_row connaught_place_row)
            (maps_link_of (info_of_row connaught_place_row))).
  repeat split; reflexivity.
Qed.

(** "Public toilet close to Hauz Khas please": no entity, and the filtered
    tokens contain "hauz khas", the only stop scoring above 70. *)
Lemma C4_fuzzy_fallback_witness :
  let query := "Public toilet close to Hauz Khas please" in
  let score := λ stop, partial_ratio (filtered_tokens query) (lower stop) in
  extract_location query sample_agent = (Return (Some "Hauz Khas"), sample_agent) ∧
  70 < score "Hauz Khas" ∧
  ∃ before after : list string,
    stop_names sample_agent = (before ++ "Hauz Khas" :: after)%list ∧
    (∀ x, x ∈ before → score x < score "Hauz Khas") ∧
    (∀ x, x ∈ after → score x ≤ score "Hauz Khas").
Proof.
  intros query score.
  assert (Hno_empty : "" ∉ stop_names sample_agent).
  { rewrite sample_stop_names. intros Hin.
    repeat (apply elem_of_cons in Hin as [Hin|Hin]; [discriminate Hin|]).
    inversion Hin. }
  split; [reflexivity|].
  apply (proj1 (C4_fuzzy_fallback query sample_agent eq_refl Hno_empty) "Hauz Khas").
  reflexivity.
Defined.





Lemma please_help_me_response :
  process_query "please help me" sample_agent =
    (Return (failure_response no_location_message), sample_agent).
Proof. reflexivity. Qed.

(** The response to "please help me" has the shape of a failure. *)
Lemma C7_response_shape_witness :
  let resp := failure_response no_location_message in
  (resp !! "success" = Some (PyBool false) ∧
   (∃ message, resp !! "message" = Some (PyStr message)) ∧
   dom resp = failure_keys) ∨
  (resp !! "success" = Some (PyBool true) ∧
   (∃ message, resp !! "message" = Some (PyStr message)) ∧
   (∃ link, resp !! "directions_link" = Some (PyStr link)) ∧
   (∃ info, resp = success_response info (maps_link_of info)) ∧
   dom resp = success_keys).
Proof.
  intros resp.
  exact (C7_response_shape "please help me" sample_agent sample_agent resp
           please_help_me_response).
Defined.

(** C7 fails on the failure response to "please help me": the dict has the
    keys [success] and [message] and nothing else; no record field and no
    link is present, not even with the value [None]. *)
Lemma C7_counterexample :
  ∃ resp,
    process_query "please help me" sample_agent = (Return resp, sample_agent) ∧
    resp !! "success" = Some (PyBool false) ∧
    resp !! "directions_link" = None ∧
    resp !! "stop_name" = None ∧
    resp !! "washroom_address" = None ∧
    resp !! "matched_record" = None ∧
    resp !! "maps_link" = None ∧
    ¬ (∃ key, resp !! key = Some PyNone).
Proof.
  exists (failure_response no_location_message).
  split; [exact please_help_me_response|].
  repeat (split; [reflexivity|]).
  intros [key Hkey]. unfold failure_response in Hkey.
  rewrite lookup_insert in Hkey. case_decide; [discriminate|].
  rewrite lookup_insert in Hkey. case_decide; [discriminate|].
  rewrite lookup_empty in Hkey. discriminate.
Qed.

(** In the fallback the returned name is a stop name and is looked up
    directly. *)
Lemma C10_fallback_name_is_known_stop_witness :
  let query := "Public toilet close to Hauz Khas please" in
  ner_locations query = [] ∧
  extract_location query sample_agent = (Return (Some "Hauz Khas"), sample_agent) ∧
  "Hauz Khas" ∈ stop_names sample_agent ∧
  find_nearest_toilet "Hauz Khas" sample_agent =
    stop_info_dict "Hauz Khas" sample_agent.
Proof.
  intros query. split; [reflexivity|]. split; [reflexivity|].
  apply (proj1 (C10_fallback_name_is_known_stop query sample_agent eq_refl)).
  reflexivity.
Defined.

(** A frame without rows: an entity that is looked up makes
    [find_nearest_toilet] unpack the [None] of [extractOne]. *)
Example process_query_empty_frame :
  init (Some "empty.csv") = Return (agent_of_df []) ∧
  process_query "toilets in Delhi" (agent_of_df []) =
    (Raise TypeError, agent_of_df []).
Proof. split; reflexivity. Qed.

End ConcreteRuns.

(** * Further properties of the agent *)

Section Resolution.
Context `{E : Externals}.

(** The first row of a name splits the frame: no earlier row has the name. *)
Lemma rows_named_split (location : string) (rows : list Row) (row : Row) :
  head (rows_named location rows) = Some row →
  ∃ before after : list Row,
    rows = (before ++ row :: after)%list ∧ stop_name row = location ∧
    ∀ r, r ∈ before → stop_name r ≠ location.
Proof.
  induction rows as [|r0 rows IH]; intros Hhead; [discriminate|].
  unfold rows_named in Hhead. rewrite filter_cons in Hhead.
  destruct (decide (stop_name r0 = location)) as [Heq|Hne].
  - cbn in Hhead. apply (inj Some) in Hhead as <-.
    exists [], rows. split; [reflexivity|]. split; [exact Heq|].
    intros r Hr. inversion Hr.
  - destruct (IH Hhead) as (before & after & -> & Hname & Hbefore).
    exists (r0 :: before), after. split; [reflexivity|]. split; [exact Hname|].
    intros r Hr. apply elem_of_cons in Hr as [->|Hr]; [exact Hne|by apply Hbefore].
Qed.

(** On an agent built from a frame, a stop selected by name has a row. *)
Lemma stop_info_dict_known (rows : list Row) (location : string) :
  location ∈ stop_name <$> rows →
  ∃ row, head (rows_named location rows) = Some row ∧
    stop_info_dict location (agent_of_df rows) =
      (Return (Some (info_of_row row)), agent_of_df rows).
Proof.
  intros Hin. destruct (rows_named_known location rows Hin) as [row Hrow].
  exists row. split; [exact Hrow|]. apply stop_info_dict_head. exact Hrow.
Qed.

(** With a best-match [extractOne] and a frame with rows, the lookup of a
    location returns. *)
Lemma find_nearest_toilet_total (scorer : string → string → Z)
    (rows : list Row) (location : string) :
  extractOne_best_match scorer →
  rows ≠ [] →
  ∃ info, find_nearest_toilet location (agent_of_df rows) = (Return info, agent_of_df rows).
Proof.
  intros Hbest Hrows. rewrite find_nearest_toilet_run.
  assert (Hdict : ∀ l, l ∈ stop_names (agent_of_df rows) →
            ∃ info, stop_info_dict l (agent_of_df rows) = (Return info, agent_of_df rows)).
  { intros l Hl. destruct (stop_info_dict_known rows l Hl) as (row & _ & ->).
    eexists. reflexivity. }
  destruct (bool_decide _) eqn:Hmem.
  - apply Hdict. apply bool_decide_eq_true in Hmem. exact Hmem.
  - pose proof (Hbest location (stop_names (agent_of_df rows))) as Hspec.
    destruct (extractOne _ _) as [[closest score]|].
    + destruct (score <? 60); [eexists; reflexivity|].
      apply Hdict. apply Hspec.
    + exfalso. apply Hrows. cbn [agent_of_df stop_names] in Hspec.
      apply fmap_nil_inv in Hspec. exact Hspec.
Qed.

Lemma process_query_total (scorer : string → string → Z)
    (rows : list Row) (query : string) :
  extractOne_best_match scorer →
  rows ≠ [] →
  ∃ resp, process_query query (agent_of_df rows) = (Return resp, agent_of_df rows).
Proof.
  intros Hbest Hrows. rewrite process_query_run.
  destruct (located query (agent_of_df rows)) as [[|c location]|];
    [eexists; reflexivity| |eexists; reflexivity].
  destruct (find_nearest_toilet_total scorer rows (String c location) Hbest Hrows)
    as [[info|] ->]; eexists; reflexivity.
Qed.


(** X3. Whatever the third-party functions return, a response with
    [success = True] is built from one row of the frame, the first row of
    its stop name: all fields, the message and the link come from that row,
    and no earlier row has its stop name. *)
Theorem success_response_from_first_row (query : string) (self self' : agent)
    (resp : gmap string pyval) :
  process_query query self = (Return resp, self') →
  resp !! "success" = Some (PyBool true) →
  ∃ (row : Row) (before after : list Row),
    df self = (before ++ row :: after)%list ∧
    (∀ r, r ∈ before → stop_name r ≠ stop_name row) ∧
    resp = success_response (info_of_row row) (maps_link_of (info_of_row row)) ∧
    reports_row resp row ∧
    resp !! "message" = Some (PyStr (
      "I found a public toilet near " +:+ stop_name row
      +:+ " bus stand. It's located at " +:+ washroom_address row
      +:+ ", approximately " +:+ py_format (distance row)
      +:+ " meters away. You can use the Google Maps link below for directions.")).
Proof.
  rewrite process_query_run. intros Hrun Hsuccess.
  destruct (located query self) as [[|c location]|].
  - apply returned_inj in Hrun as [<- _]. discriminate.
  - destruct (find_nearest_toilet (String c location) self)
      as [[[info|]|e] self2] eqn:Hfind; [| |discriminate].
    + apply returned_inj in Hrun as [<- _].
      apply find_nearest_toilet_first in Hfind as (matched & row & Hhead & ->).
      apply rows_named_split in Hhead as (before & after & Hsplit & Hname & Hbefore).
      exists row, before, after. split; [exact Hsplit|].
      split; [intros r Hr; rewrite Hname; by apply Hbefore|].
      split; [reflexivity|]. split; [apply success_response_reports|reflexivity].
    + apply returned_inj in Hrun as [<- _]. discriminate.
  - apply returned_inj in Hrun as [<- _]. discriminate.
Qed.

(** X4. [extract_location] returns the text of the first entity labelled
    LOC or GPE, whatever the stop names are: entities with other labels
    before it are skipped, and the fuzzy fallback is not consulted. *)
Theorem extract_location_first_place_entity (query : string) (self : agent)
    (skipped later : list (string * string)) (text label : string) :
  nlp_ents query = (skipped ++ (text, label) :: later)%list →
  label = "LOC" ∨ label = "GPE" →
  (∀ ent, ent ∈ skipped → ent.2 ≠ "LOC" ∧ ent.2 ≠ "GPE") →
  extract_location query self = (Return (Some text), self).
Proof.
  intros Hents Hlabel Hskipped.
  assert (Hner : ∃ others, ner_locations query = text :: others).
  { unfold ner_locations. rewrite Hents, filter_app, filter_cons.
    assert (Hnone : filter (λ ent : string * string, ent.2 ∈ ["LOC"; "GPE"]) skipped = []).
    { clear Hents. induction skipped as [|ent skipped IH]; [reflexivity|].
      rewrite filter_cons. destruct (decide _) as [Hin|_].
      - exfalso. destruct (Hskipped ent) as [Hloc Hgpe]; [left|].
        apply elem_of_cons in Hin as [Hin|Hin]; [contradiction|].
        apply list_elem_of_singleton in Hin. contradiction.
      - apply IH. intros e He. apply Hskipped. by right. }
    rewrite Hnone. rewrite decide_True.
    - eexists. reflexivity.
    - cbn [snd]. destruct Hlabel as [->| ->]; [left|right; left]. }
  destruct Hner as [others Hner].
  eapply extract_location_ner, Hner.
Qed.

(** ** The row behind an answer *)

Lemma first_row_named_head (name : string) (rows : list Row) (row : Row) :
  first_row_named name rows row ↔ head (rows_named name rows) = Some row.
Proof.
  split.
  - intros (before & after & -> & Hname & Hbefore).
    unfold rows_named. rewrite filter_app.
    assert (Hnone : filter (λ r, stop_name r = name) before = []).
    { induction before as [|r0 before IH]; [reflexivity|].
      rewrite filter_cons. rewrite decide_False by (apply Hbefore; left).
      apply IH. intros r Hr. apply Hbefore. by right. }
    rewrite Hnone, filter_cons. rewrite decide_True by exact Hname. reflexivity.
  - intros Hhead. destruct (rows_named_split _ _ _ Hhead) as (before & after & H).
    exists before, after. exact H.
Qed.

Lemma success_response_answers (row : Row) :
  answers_with_row
    (success_response (info_of_row row) (maps_link_of (info_of_row row))) row.
Proof. split; [apply success_response_reports|reflexivity]. Qed.

(** A success response names the stop of the row it is built from. *)
Lemma answers_with_row_name (row row' : Row) (link : string) :
  reports_row (success_response (info_of_row row') link) row →
  stop_name row' = stop_name row.
Proof.
  intros (_ & Hname & _).
  change (Some (PyStr (stop_name row')) = Some (PyStr (stop_name row))) in Hname.
  apply (inj Some), PyStr_inj in Hname. exact Hname.
Qed.

(** ** The three ways a query is resolved to a stop *)

(** The first LOC/GPE entity is a stop name. *)
Lemma resolve_entity_known (rows : list Row) (query text : string)
    (others : list string) (row : Row) :
  ner_locations query = text :: others →
  text ≠ "" →
  head (rows_named text rows) = Some row →
  process_query query (agent_of_df rows) =
    (Return (success_response (info_of_row row) (maps_link_of (info_of_row row))),
     agent_of_df rows).
Proof.
  intros Hner Hne Hrow.
  assert (Hin : text ∈ stop_names (agent_of_df rows)).
  { apply rows_named_head in Hrow as [Hrow <-].
    cbn [agent_of_df stop_names]. apply list_elem_of_fmap. eauto. }
  rewrite process_query_run. unfold located. rewrite Hner.
  destruct text as [|c text]; [congruence|].
  rewrite find_nearest_toilet_known by exact Hin.
  rewrite (stop_info_dict_head _ _ row) by exact Hrow. reflexivity.
Qed.

(** The first LOC/GPE entity is no stop name and [extractOne] decides. *)
Lemma resolve_entity_unknown (rows : list Row) (query text : string)
    (others : list string) (best : string) (score : Z) :
  ner_locations query = text :: others →
  text ≠ "" →
  text ∉ stop_name <$> rows →
  extractOne text (stop_name <$> rows) = Some (best, score) →
  process_query query (agent_of_df rows) =
    match (if score <? 60 then (Return None, agent_of_df rows)
           else stop_info_dict best (agent_of_df rows)) with
    | (Return None, self') =>
        (Return (failure_response (no_match_message text)), self')
    | (Return (Some info), self') =>
        (Return (success_response info (maps_link_of info)), self')
    | (Raise e, self') => (Raise e, self')
    end.
Proof.
  intros Hner Hne Hnotin Hextract.
  rewrite process_query_run. unfold located. rewrite Hner.
  destruct text as [|c text]; [congruence|].
  rewrite find_nearest_toilet_run.
  rewrite bool_decide_eq_false_2 by exact Hnotin.
  cbn [agent_of_df stop_names]. rewrite Hextract. reflexivity.
Qed.

(** No LOC/GPE entity, and the fuzzy loop ends with a stop name. *)
Lemma resolve_fallback (rows : list Row) (query best : string) (row : Row) :
  ner_locations query = [] →
  (fuzzy_loop (filtered_tokens query) (stop_name <$> rows)).1 = Some best →
  best ≠ "" →
  head (rows_named best rows) = Some row →
  process_query query (agent_of_df rows) =
    (Return (success_response (info_of_row row) (maps_link_of (info_of_row row))),
     agent_of_df rows).
Proof.
  intros Hner Hloop Hne Hrow.
  assert (Hin : best ∈ stop_names (agent_of_df rows)).
  { apply rows_named_head in Hrow as [Hrow <-].
    cbn [agent_of_df stop_names]. apply list_elem_of_fmap. eauto. }
  rewrite process_query_run. unfold located, fallback_value. rewrite Hner.
  cbn [agent_of_df stop_names]. rewrite Hloop.
  destruct best as [|c best]; [congruence|]. cbn [truthy].
  rewrite find_nearest_toilet_known by exact Hin.
  rewrite (stop_info_dict_head _ _ row) by exact Hrow. reflexivity.
Qed.

(** What a success of [process_query] tells about its steps. *)
Lemma process_query_success_steps (query : string) (self self' : agent)
    (resp : gmap string pyval) :
  process_query query self = (Return resp, self') →
  resp !! "success" = Some (PyBool true) →
  ∃ (location matched : string) (row : Row),
    located query self = Some location ∧ location ≠ "" ∧
    head (rows_named matched (df self)) = Some row ∧
    resp = success_response (info_of_row row) (maps_link_of (info_of_row row)) ∧
    ((location ∈ stop_names self ∧ matched = location) ∨
     ((location ∉ stop_names self) ∧
      ∃ score, extractOne location (stop_names self) = Some (matched, score) ∧
               60 ≤ score)).
Proof.
  rewrite process_query_run. intros Hrun Hsuccess.
  destruct (located query self) as [[|c location]|].
  - apply returned_inj in Hrun as [<- _]. discriminate.
  - destruct (find_nearest_toilet (String c location) self)
      as [[[info|]|e] self2] eqn:Hfind; [| |discriminate].
    + apply returned_inj in Hrun as [<- _].
      rewrite find_nearest_toilet_run in Hfind.
      assert (Hdict : ∀ l, stop_info_dict l self = (Return (Some info), self2) →
                ∃ row, head (rows_named l (df self)) = Some row ∧ info = info_of_row row).
      { intros l. rewrite stop_info_dict_run.
        destruct (rows_named l (df self)) as [|row sel]; [discriminate|].
        intros Heq. apply returned_inj in Heq as [Heq _].
        exists row. split; [reflexivity|congruence]. }
      destruct (bool_decide _) eqn:Hmem.
      * apply bool_decide_eq_true in Hmem.
        destruct (Hdict _ Hfind) as (row & Hrow & ->).
        exists (String c location), (String c location), row.
        split; [reflexivity|]. split; [discriminate|]. split; [exact Hrow|].
        split; [reflexivity|]. left. auto.
      * apply bool_decide_eq_false in Hmem.
        destruct (extractOne _ _) as [[closest score]|] eqn:Hextract; [|discriminate].
        destruct (Z.ltb_spec score 60) as [Hlt|Hge]; [discriminate|].
        destruct (Hdict _ Hfind) as (row & Hrow & ->).
        exists (String c location), closest, row.
        split; [reflexivity|]. split; [discriminate|]. split; [exact Hrow|].
        split; [reflexivity|]. right. split; [exact Hmem|]. exists score. auto.
    + apply returned_inj in Hrun as [<- _]. discriminate.
  - apply returned_inj in Hrun as [<- _]. discriminate.
Qed.

(** Where the value of [extract_location] comes from. *)
Lemma located_cases (query : string) (self : agent) (location : string) :
  located query self = Some location →
  (∃ others, ner_locations query = location :: others) ∨
  (ner_locations query = [] ∧
   (fuzzy_loop (filtered_tokens query) (stop_names self)).1 = Some location).
Proof.
  unfold located. destruct (ner_locations query) as [|l ls].
  - intros Hval. right. split; [reflexivity|].
    unfold fallback_value in Hval.
    destruct (fuzzy_loop _ _).1 as [[|c m]|]; cbn [truthy] in Hval;
      try discriminate. exact Hval.
  - intros Hval. left. exists ls. congruence.
Qed.

(** ** Matching a name to a stop *)

(** C3. On an agent built from a frame, with an [extractOne] that returns a
    best match out of its choices.  A name of the stop list is used as it
    is: the result is the record of the first row with that stop name.  For
    any other name, whenever the fuzzy match yields a best stop and its
    score: the result is [None] exactly when that score is below 60, which
    is exactly when every stop name scores below 60; otherwise the result
    is the record (stop name, coordinates, washroom id, washroom
    coordinates, address, distance) of the first row of that best stop,
    whose name scores highest of all stop names, between 60 and 100. *)
Theorem C3_find_nearest_toilet (scorer : string → string → Z)
    (rows : list Row) (name : string) :
  extractOne_best_match scorer →
  let self := agent_of_df rows in
  let record := λ row : Row,
    {| ti_stop_name := stop_name row;
       ti_stop_lat := stop_lat row;
       ti_stop_lon := stop_lon row;
       ti_washroom_id := nearest_washroom_id row;
       ti_washroom_lat := washroom_latitude row;
       ti_washroom_lon := washroom_longitude row;
       ti_washroom_address := washroom_address row;
       ti_distance := distance row |} in
  (name ∈ stop_names self →
     ∃ row, first_row_named name rows row ∧
       find_nearest_toilet name self = (Return (Some (record row)), self)) ∧
  (name ∉ stop_names self →
     ∀ (best : string) (score : Z),
       extractOne name (stop_names self) = Some (best, score) →
       (find_nearest_toilet name self = (Return None, self) ↔ score < 60) ∧
       (score < 60 ↔ ∀ c, c ∈ stop_names self → scorer name c < 60) ∧
       (60 ≤ score →
          ∃ row, first_row_named best rows row ∧
            (∀ c, c ∈ stop_names self → scorer name c ≤ scorer name (stop_name row)) ∧
            60 ≤ scorer name (stop_name row) ≤ 100 ∧
            find_nearest_toilet name self = (Return (Some (record row)), self))).
Proof.
  intros Hbest self record. split.
  - intros Hin. destruct (rows_named_known name rows Hin) as [row Hrow].
    exists row. split; [apply first_row_named_head; exact Hrow|].
    rewrite (find_nearest_toilet_known _ _ Hin).
    apply stop_info_dict_head. exact Hrow.
  - intros Hnotin best score Hextract.
    pose proof (Hbest name (stop_names self)) as Hspec.
    rewrite Hextract in Hspec. destruct Hspec as (Hmem & Hscore & Hrange & Hmax).
    assert (Hfind : find_nearest_toilet name self =
              if score <? 60 then (Return None, self) else stop_info_dict best self).
    { rewrite find_nearest_toilet_run.
      rewrite bool_decide_eq_false_2 by exact Hnotin. rewrite Hextract. reflexivity. }
    split; [|split].
    + rewrite Hfind. destruct (Z.ltb_spec score 60) as [Hlt|Hge].
      * split; [intros _; exact Hlt|reflexivity].
      * split; [|lia]. intros Hnone. exfalso. eapply stop_info_dict_not_none, Hnone.
    + split.
      * intros Hlt c Hc. specialize (Hmax c Hc). lia.
      * intros Hall. specialize (Hall best Hmem). lia.
    + intros Hge. destruct (rows_named_known best rows Hmem) as [row Hrow].
      pose proof (proj2 (first_row_named_head best rows row) Hrow) as Hfirst.
      assert (Hname : stop_name row = best) by (destruct Hfirst as (? & ? & _ & ? & _); assumption).
      exists row. split; [exact Hfirst|]. rewrite Hname, <- Hscore.
      split; [exact Hmax|]. split; [lia|].
      rewrite Hfind. apply Z.ltb_ge in Hge. rewrite Hge.
      rewrite (stop_info_dict_head _ _ row) by exact Hrow.
      unfold info_of_row, record. reflexivity.
Qed.

(** ** Queries made of a stop name *)

(** C1 (amended). For a row with a non-empty stop name that is the first
    row of that name in the frame, [process_query] answers the query made of
    that stop name with the success response of this row (stop name,
    coordinates, washroom id, washroom coordinates, address, distance, and
    the link from the stop to the washroom) exactly when the query is
    resolved to that stop, which happens in three ways: the first LOC/GPE
    entity found in the name is the name itself; or the first LOC/GPE entity
    is another non-empty text, not a stop name, for which [extractOne]
    returns this stop name with a score of at least 60; or no LOC/GPE entity
    is found and this stop name is the first of maximal partial-ratio score
    against the filtered tokens of the name, with a score above 70. *)
Theorem C1_exact_stop_name_query (rows : list Row) (row : Row) :
  let self := agent_of_df rows in
  let name := stop_name row in
  let score := λ stop, partial_ratio (filtered_tokens name) (lower stop) in
  name ≠ "" →
  first_row_named name rows row →
  ((∃ resp, process_query name self = (Return resp, self) ∧ answers_with_row resp row)
   ↔
   ((∃ others, ner_locations name = name :: others) ∨
    (∃ (text : string) (others : list string) (points : Z),
       ner_locations name = text :: others ∧ text ≠ "" ∧
       (text ∉ stop_names self) ∧
       extractOne text (stop_names self) = Some (name, points) ∧ 60 ≤ points) ∨
    (ner_locations name = [] ∧ 70 < score name ∧
     ∃ before after : list string,
       stop_names self = (before ++ name :: after)%list ∧
       (∀ x, x ∈ before → score x < score name) ∧
       (∀ x, x ∈ after → score x ≤ score name)))).
Proof.
  intros self name score Hne Hfirst. subst self.
  pose proof (proj1 (first_row_named_head name rows row) Hfirst) as Hrow.
  split.
  - intros (resp & Hrun & Hreports & _).
    pose proof Hreports as (Hsuccess & _).
    destruct (process_query_success_steps _ _ _ _ Hrun Hsuccess)
      as (location & matched & row' & Hloc & Hlne & Hrow' & -> & Hway).
    pose proof (answers_with_row_name _ _ _ Hreports) as Hsame.
    assert (Hmatched : matched = name).
    { apply rows_named_head in Hrow' as [_ <-]. exact Hsame. }
    subst matched.
    destruct Hway as [[Hin ->]|(Hnotin & points & Hextract & Hge)].
    + destruct (located_cases _ _ _ Hloc) as [[others Hner]|[Hner Hloop]].
      * left. exists others. exact Hner.
      * right. right. split; [exact Hner|].
        apply fuzzy_loop_some in Hloop. exact Hloop.
    + destruct (located_cases _ _ _ Hloc) as [[others Hner]|[Hner Hloop]].
      * right. left. exists location, others, points. auto.
      * exfalso. apply Hnotin. eapply fuzzy_loop_elem, Hloop.
  - intros [[others Hner]|[(text & others & points & Hner & Htext & Hnotin & Hextract & Hge)
                           |(Hner & H70 & Hsplit)]].
    + eexists. split; [|apply success_response_answers].
      eapply resolve_entity_known; [exact Hner|exact Hne|exact Hrow].
    + eexists. split; [|apply success_response_answers].
      rewrite (resolve_entity_unknown rows name text others name points Hner Htext Hnotin Hextract).
      apply Z.ltb_ge in Hge. rewrite Hge.
      rewrite (stop_info_dict_head _ _ row) by exact Hrow. reflexivity.
    + eexists. split; [|apply success_response_answers].
      eapply resolve_fallback; [exact Hner| |exact Hne|exact Hrow].
      apply fuzzy_loop_some. split; [exact H70|exact Hsplit].
Qed.

(** ** Exceptions of the lookup *)

(** X1. With an [extractOne] that returns a best match out of its choices,
    on an agent built from a frame with at least one row, the two places of
    [find_nearest_toilet] that can raise do not: neither the unpacking of
    the result of [extractOne] ([TypeError]) nor [.iloc[0]] on the selected
    rows ([IndexError]), whether the method is called directly or by
    [process_query]. *)
Theorem process_query_returns (scorer : string → string → Z) (rows : list Row) :
  extractOne_best_match scorer →
  rows ≠ [] →
  (∀ location,
     (find_nearest_toilet location (agent_of_df rows)).1 ≠ Raise TypeError ∧
     (find_nearest_toilet location (agent_of_df rows)).1 ≠ Raise IndexError) ∧
  (∀ query,
     (process_query query (agent_of_df rows)).1 ≠ Raise TypeError ∧
     (process_query query (agent_of_df rows)).1 ≠ Raise IndexError).
Proof.
  intros Hbest Hrows. split.
  - intros location.
    destruct (find_nearest_toilet_total scorer rows location Hbest Hrows) as [info ->].
    split; discriminate.
  - intros query.
    destruct (process_query_total scorer rows query Hbest Hrows) as [resp ->].
    split; discriminate.
Qed.

(** ** Queries with and without a place entity *)

(** X5. A query whose first LOC/GPE entity is, letter for letter, a stop
    name of the frame is answered with the success response of the first
    row of that name (its eight fields and the link between its
    coordinates); [extractOne] and the fuzzy fallback play no part. *)
Theorem entity_stop_name_resolves (rows : list Row) (query text : string)
    (others : list string) :
  ner_locations query = text :: others →
  text ≠ "" →
  text ∈ stop_name <$> rows →
  ∃ (row : Row) (resp : gmap string pyval),
    first_row_named text rows row ∧
    process_query query (agent_of_df rows) = (Return resp, agent_of_df rows) ∧
    answers_with_row resp row.
Proof.
  intros Hner Hne Hin. destruct (rows_named_known text rows Hin) as [row Hrow].
  exists row. eexists. split; [apply first_row_named_head; exact Hrow|].
  split; [|apply success_response_answers].
  eapply resolve_entity_known; [exact Hner|exact Hne|exact Hrow].
Qed.

(** X6. A query whose first LOC/GPE entity is a non-empty text that is no
    stop name is settled by [extractOne] alone: when its best stop scores
    below 60 the answer is the "no matching stop" failure naming the entity
    text; otherwise it is the success response of the first row of the best
    stop (its eight fields and the link between its coordinates). *)
Theorem entity_unknown_name_resolves (rows : list Row) (query text : string)
    (others : list string) (best : string) (score : Z) :
  ner_locations query = text :: others →
  text ≠ "" →
  text ∉ stop_name <$> rows →
  extractOne text (stop_name <$> rows) = Some (best, score) →
  best ∈ stop_name <$> rows →
  (score < 60 →
     process_query query (agent_of_df rows) =
       (Return (failure_response
          ("I couldn't find a bus stand matching '" +:+ text +:+ "' in our database.")),
        agent_of_df rows)) ∧
  (60 ≤ score →
     ∃ (row : Row) (resp : gmap string pyval),
       first_row_named best rows row ∧
       process_query query (agent_of_df rows) = (Return resp, agent_of_df rows) ∧
       answers_with_row resp row).
Proof.
  intros Hner Hne Hnotin Hextract Hbest.
  rewrite (resolve_entity_unknown rows query text others best score Hner Hne Hnotin Hextract).
  split.
  - intros Hlt. apply Z.ltb_lt in Hlt. rewrite Hlt. reflexivity.
  - intros Hge. apply Z.ltb_ge in Hge. rewrite Hge.
    destruct (rows_named_known best rows Hbest) as [row Hrow].
    exists row. eexists. split; [apply first_row_named_head; exact Hrow|].
    rewrite (stop_info_dict_head _ _ row) by exact Hrow.
    split; [reflexivity|apply success_response_answers].
Qed.

(** X7. A query without LOC/GPE entity whose filtered tokens score above 70
    against some stop name is answered with the success response of the
    first row of the first stop name of maximal score (its eight fields and
    the link between its coordinates). *)
Theorem fallback_best_stop_resolves (rows : list Row) (query best : string)
    (before after : list string) :
  let score := λ stop, partial_ratio (filtered_tokens query) (lower stop) in
  ner_locations query = [] →
  best ≠ "" →
  stop_name <$> rows = (before ++ best :: after)%list →
  70 < score best →
  (∀ x, x ∈ before → score x < score best) →
  (∀ x, x ∈ after → score x ≤ score best) →
  ∃ (row : Row) (resp : gmap string pyval),
    first_row_named best rows row ∧
    process_query query (agent_of_df rows) = (Return resp, agent_of_df rows) ∧
    answers_with_row resp row.
Proof.
  intros score Hner Hne Hsplit H70 Hbefore Hafter.
  assert (Hloop : (fuzzy_loop (filtered_tokens query) (stop_name <$> rows)).1 = Some best).
  { apply fuzzy_loop_some. split; [exact H70|]. exists before, after. auto. }
  assert (Hin : best ∈ stop_name <$> rows).
  { rewrite Hsplit. apply elem_of_app. right. left. }
  destruct (rows_named_known best rows Hin) as [row Hrow].
  exists row. eexists. split; [apply first_row_named_head; exact Hrow|].
  split; [|apply success_response_answers].
  eapply resolve_fallback; [exact Hner|exact Hloop|exact Hne|exact Hrow].
Qed.

(** ** A query that names one stop and is answered with another *)

(** Under [sector_18_library_facts], the query "Sector 18" on the frame of
    Sector 62 and Sector 18 is answered with the row of Sector 62. *)
Lemma sector_18_answered_with_sector_62 :
  sector_18_library_facts →
  process_query "Sector 18" (agent_of_df sector_rows) =
    (Return (success_response (info_of_row sector_62)
               (maps_link_of (info_of_row sector_62))),
     agent_of_df sector_rows).
Proof.
  intros (Hner & Hlow18 & Hlow62 & Htok & Hsector & Hdigits & Hstop & H62 & H18).
  assert (Hfiltered : filtered_tokens "Sector 18" = "sector").
  { unfold filtered_tokens. rewrite Hlow18, Htok.
    rewrite filter_cons, decide_True by (split; assumption).
    rewrite filter_cons, decide_False by (intros [Hd _]; congruence).
    reflexivity. }
  apply (resolve_fallback sector_rows "Sector 18" "Sector 62" sector_62 Hner).
  - apply fuzzy_loop_some. rewrite Hfiltered. unfold stop_score.
    rewrite Hlow62, H62. split; [lia|].
    exists [], ["Sector 18"]. split; [reflexivity|]. split.
    + intros x Hx. inversion Hx.
    + intros x Hx. apply list_elem_of_singleton in Hx as ->.
      rewrite Hlow18. exact H18.
  - discriminate.
  - reflexivity.
Qed.


End Resolution.

(** * Properties of the callers *)

Section CallerProperties.
Context `{E : Externals}.
Variable num_bool : num → bool.

(** The two forms of a response of [process_query]. *)
Lemma process_query_response_cases (query : string) (self self' : agent)
    (resp : gmap string pyval) :
  process_query query self = (Return resp, self') →
  (∃ message, resp = failure_response message) ∨
  (∃ row, row ∈ df self ∧
     resp = success_response (info_of_row row) (maps_link_of (info_of_row row))).
Proof.
  rewrite process_query_run. intros Hrun.
  destruct (located query self) as [[|c location]|].
  - apply returned_inj in Hrun as [<- _]. left. eexists. reflexivity.
  - destruct (find_nearest_toilet (String c location) self)
      as [[[info|]|e] self2] eqn:Hfind; [| |discriminate].
    + apply returned_inj in Hrun as [<- _].
      apply find_nearest_toilet_row in Hfind as (row & Hrow & ->).
      right. exists row. split; [exact Hrow|reflexivity].
    + apply returned_inj in Hrun as [<- _]. left. eexists. reflexivity.
  - apply returned_inj in Hrun as [<- _]. left. eexists. reflexivity.
Qed.

(** X8. The page shows every response of [process_query] without a
    [KeyError]: each key it reads is in the dict in the branch that reads
    it.  The message of the response is among the texts shown. *)
Theorem show_result_no_key_error (query : string) (self self' : agent)
    (resp : gmap string pyval) :
  process_query query self = (Return resp, self') →
  ∃ (calls : list st_call) (message : string),
    show_result num_bool resp = (calls, inr ()) ∧
    resp !! "message" = Some (PyStr message) ∧
    st_markdown message false ∈ calls.
Proof.
  intros Hrun.
  destruct (process_query_response_cases _ _ _ _ Hrun) as [[message ->]|(row & _ & ->)].
  - eexists _, message. split; [reflexivity|]. split; [reflexivity|].
    do 2 right. left.
  - eexists _, _. split; [reflexivity|]. split; [reflexivity|].
    do 2 right. left.
Qed.

(** X9. For a success response of [process_query], the map of the page and
    the directions link describe the same row of the frame: the map is
    centred on the stop, its two markers stand on the stop and on the
    washroom, its line joins them, and the link leads from the stop to the
    washroom. *)
Theorem result_map_matches_link (query : string) (self self' : agent)
    (resp : gmap string pyval) :
  process_query query self = (Return resp, self') →
  resp !! "success" = Some (PyBool true) →
  ∃ row, row ∈ df self ∧
    let stop := [PyNum (stop_lat row); PyNum (stop_lon row)] in
    let washroom := [PyNum (washroom_latitude row); PyNum (washroom_longitude row)] in
    result_map resp =
      ([], inr {| map_location := stop;
                  map_zoom_start := 16;
                  map_children :=
                    [ folium_Marker stop ("Bus Stand: " +:+ stop_name row)
                        (PyStr (stop_name row))
                        {| icon_color := "blue"; icon_name := "bus"; icon_prefix := "fa" |};
                      folium_Marker washroom ("Toilet: " +:+ washroom_address row)
                        (PyStr "Public Toilet")
                        {| icon_color := "green"; icon_name := "toilet"; icon_prefix := "fa" |};
                      folium_PolyLine [stop; washroom] "blue" 2 (num_literal "0.7") "5" ] |}) ∧
    resp !! "directions_link" = Some (PyStr (
      "https://www.google.com/maps/dir/?api=1&origin=" +:+ py_format (stop_lat row)
      +:+ "," +:+ py_format (stop_lon row)
      +:+ "&destination=" +:+ py_format (washroom_latitude row)
      +:+ "," +:+ py_format (washroom_longitude row)
      +:+ "&travelmode=walking")).
Proof.
  intros Hrun Hsuccess.
  destruct (process_query_response_cases _ _ _ _ Hrun) as [[message ->]|(row & Hrow & ->)].
  - discriminate.
  - exists row. split; [exact Hrow|]. split; reflexivity.
Qed.

(** X10. After the widgets, the query is the example of the last example
    button that was pressed, and the typed text when none was; the search
    runs when the Search button or any example button was pressed.  An
    example button thus always starts a search with a non-empty query. *)
Theorem select_query_last_button_wins (text : string)
    (search pressed0 pressed1 pressed2 pressed3 : bool) :
  select_query text search pressed0 pressed1 pressed2 pressed3 =
    (if pressed3 then "Washroom near Lajpat Nagar"
     else if pressed2 then "Public toilet close to Hauz Khas please"
     else if pressed1 then "I need a washroom near Connaught Place"
     else if pressed0 then "Where can I find a toilet near Arjun Nagar?"
     else text,
     search || pressed0 || pressed1 || pressed2 || pressed3) ∧
  (pressed0 || pressed1 || pressed2 || pressed3 = true →
   let '(query, search_button) :=
     select_query text search pressed0 pressed1 pressed2 pressed3 in
   search_button && truthy (Some query) = true).
Proof.
  split.
  - destruct search, pressed0, pressed1, pressed2, pressed3; reflexivity.
  - destruct pressed0, pressed1, pressed2, pressed3; try discriminate;
      intros _; reflexivity.
Qed.

(** X13. On an agent built from a frame without rows, with an [extractOne]
    that returns [None] for an empty list of choices, a search whose query
    has a non-empty first LOC/GPE entity brings the page down: after the
    Results header and the spinner, the [TypeError] of [process_query]
    reaches the page, and no result is shown. *)
Theorem results_section_without_rows (query text : string) (others : list string) :
  (∀ location, extractOne location [] = None) →
  query ≠ "" →
  ner_locations query = text :: others →
  text ≠ "" →
  results_section num_bool true query (agent_of_df []) =
    (([ st_markdown "<h2 class='sub-header'>Results</h2>" true;
        st_spinner "Searching for the nearest toilet..." ],
      inl (AgentError TypeError)),
     agent_of_df []).
Proof.
  intros Hnone Hquery Hner Htext. unfold results_section.
  destruct query as [|c query]; [congruence|]. cbn [andb truthy].
  rewrite process_query_run. unfold located. rewrite Hner.
  destruct text as [|c' text]; [congruence|].
  rewrite (find_nearest_toilet_no_stops _ (Hnone _)). reflexivity.
Qed.

(** What the loop prints for one query, by the form of the response. *)
Lemma demo_loop_cons (query : string) (rest : list string) (self : agent)
    (resp : gmap string pyval) :
  process_query query self = (Return resp, self) →
  ∃ block : list string,
    demo_loop num_bool (query :: rest) self =
      ((block ++ (demo_loop num_bool rest self).1)%list,
       (demo_loop num_bool rest self).2) ∧
    ("Query: " +:+ query) ∈ block ∧ (3 ≤ List.length block ≤ 4)%nat.
Proof.
  intros Hrun. cbn [demo_loop]. rewrite Hrun.
  destruct (demo_loop num_bool rest self) as [lines r].
  destruct (process_query_response_cases _ _ _ _ Hrun) as [[message ->]|(row & _ & ->)].
  - exists ["Query: " +:+ query; "Response: " +:+ message; "---"].
    split; [reflexivity|]. split; [left|cbn; lia].
  - exists ["Query: " +:+ query;
            "Response: " +:+ found_message (info_of_row row);
            "Directions: " +:+ maps_link_of (info_of_row row); "---"].
    split; [reflexivity|]. split; [left|cbn; lia].
Qed.

Lemma demo_loop_completes (scorer : string → string → Z) (rows : list Row)
    (queries : list string) :
  extractOne_best_match scorer →
  rows ≠ [] →
  ∃ lines : list string,
    demo_loop num_bool queries (agent_of_df rows) = (lines, inr ()) ∧
    (∀ query, query ∈ queries → ("Query: " +:+ query) ∈ lines) ∧
    (3 * List.length queries ≤ List.length lines ≤ 4 * List.length queries)%nat.
Proof.
  intros Hbest Hrows. induction queries as [|query rest IH].
  - exists []. split; [reflexivity|]. split; [|cbn; lia].
    intros query Hq. inversion Hq.
  - destruct IH as (lines & Hrest & Hqueries & Hlen).
    destruct (process_query_total scorer rows query Hbest Hrows) as [resp Hrun].
    destruct (demo_loop_cons query rest _ resp Hrun) as (block & Hcons & Hfirst & Hblock).
    rewrite Hrest in Hcons. cbn [fst snd] in Hcons.
    exists (block ++ lines)%list. split; [exact Hcons|]. split.
    + intros q Hq. apply elem_of_app.
      apply elem_of_cons in Hq as [->|Hq]; [left; exact Hfirst|right; by apply Hqueries].
    + rewrite length_app. cbn [List.length]. lia.
Qed.

(** X12. With an [extractOne] that returns a best match out of its choices,
    the demo loop of Agent.py runs to its end on the sample frame: nothing
    is raised (no [KeyError] for [directions_link] either, which is read
    for successes only), every one of the five queries is printed, and each
    query gives three or four lines. *)
Theorem main_completes (scorer : string → string → Z) :
  extractOne_best_match scorer →
  ∃ lines : list string,
    main num_bool = (lines, inr ()) ∧
    (∀ query, query ∈ demo_queries → ("Query: " +:+ query) ∈ lines) ∧
    (15 ≤ List.length lines ≤ 20)%nat.
Proof.
  intros Hbest. unfold main. cbn [init truthy].
  apply (demo_loop_completes scorer sample_df demo_queries Hbest).
  discriminate.
Qed.

End CallerProperties.

(** * Runs of the further properties *)

Section FurtherRuns.
#[local] Existing Instance Demo.externals.

Lemma sample_df_rows : sample_df ≠ [].
Proof. discriminate. Qed.

Lemma delhi_not_a_stop : "Delhi" ∉ stop_name <$> sample_df.
Proof.
  change (stop_name <$> sample_df) with (stop_names sample_agent).
  rewrite sample_stop_names. intros Hin.
  repeat (apply elem_of_cons in Hin as [Hin|Hin]; [discriminate Hin|]).
  inversion Hin.
Qed.

(** The concrete third-party functions behave on "Sector 18" as
    [sector_18_library_facts] says. *)
Lemma demo_sector_18_library_facts : sector_18_library_facts.
Proof.
  do 6 (split; [reflexivity|]). split; [|split; [reflexivity|]].
  - intros Hin. change ("sector" ∈ Demo.stop_word_list) in Hin.
    unfold Demo.stop_word_list in Hin.
    repeat (apply elem_of_cons in Hin as [Hin|Hin]; [discriminate Hin|]).
    inversion Hin.
  - intros Hgt. discriminate Hgt.
Qed.

(** The query "Hauz Khas" on the sample frame: no entity is found, the
    filtered tokens are the name itself, and the response is built from
    the row of Hauz Khas. *)
Lemma C1_exact_stop_name_query_witness :
  ∃ resp,
    process_query "Hauz Khas" sample_agent = (Return resp, sample_agent) ∧
    answers_with_row resp hauz_khas_row.
Proof.
  assert (Hfirst : first_row_named "Hauz Khas" sample_df hauz_khas_row).
  { apply first_row_named_head. reflexivity. }
  apply (proj2 (C1_exact_stop_name_query sample_df hauz_khas_row
                  ltac:(discriminate) Hfirst)).
  right. right. split; [reflexivity|]. split; [reflexivity|].
  exists ["Arjun Nagar"; "Karol Bagh"; "Connaught Place"; "Lajpat Nagar"], [].
  split; [reflexivity|]. split.
  - intros x Hin.
    repeat (apply elem_of_cons in Hin as [->|Hin]); [..|inversion Hin]; reflexivity.
  - intros x Hin. inversion Hin.
Defined.

(** C1 fails in two ways.  With a stop name listed twice, the response to
    that name never carries the second row, whatever the third-party
    functions do.  And with unique names, whenever the third-party
    functions behave on "Sector 18" as [sector_18_library_facts] says, the
    query "Sector 18" on the frame of Sector 62 and Sector 18 is answered
    with the row of Sector 62: the token 18 is dropped as non-alphabetic
    and "sector" matches the first stop with score 100. *)
Lemma C1_counterexample :
  (∀ E : Externals,
     ¬ ∀ row, row ∈ town_hall_rows →
         ∃ resp,
           (process_query (stop_name row) (agent_of_df town_hall_rows)).1 = Return resp ∧
           reports_row resp row) ∧
  (∀ E : Externals,
     sector_18_library_facts →
     ¬ ∀ row, row ∈ sector_rows →
         ∃ resp,
           (process_query (stop_name row) (agent_of_df sector_rows)).1 = Return resp ∧
           reports_row resp row).
Proof.
  split.
  - intros E' Hclaim.
    destruct (Hclaim town_hall_second) as (resp & Hrun & Hrep);
      [right; left|].
    change (stop_name town_hall_second) with "Town Hall" in Hrun.
    rewrite process_query_run in Hrun.
    destruct (located "Town Hall" (agent_of_df town_hall_rows)) as [[|c loc]|].
    + apply Return_inj in Hrun as <-. destruct Hrep as [Hs _]. discriminate.
    + destruct (find_nearest_toilet (String c loc) (agent_of_df town_hall_rows))
        as [[[info|]|e] self2] eqn:Hfind; [| |discriminate].
      * apply Return_inj in Hrun as <-.
        apply find_nearest_toilet_first in Hfind as (l & row & Hhead & ->).
        assert (Hrow : row = town_hall_first).
        { apply (rows_named_first l town_hall_first row [town_hall_second] Hhead).
          apply rows_named_head in Hhead as [Hin _].
          apply elem_of_cons in Hin as [->|Hin]; [reflexivity|].
          apply list_elem_of_singleton in Hin as ->. reflexivity. }
        subst row. destruct Hrep as (_ & _ & _ & _ & Hid & _).
        discriminate.
      * apply Return_inj in Hrun as <-. destruct Hrep as [Hs _]. discriminate.
    + apply Return_inj in Hrun as <-. destruct Hrep as [Hs _]. discriminate.
  - intros E' Hfacts Hclaim.
    destruct (Hclaim sector_18) as (resp & Hrun & Hrep); [right; left|].
    change (stop_name sector_18) with "Sector 18" in Hrun.
    rewrite (sector_18_answered_with_sector_62 Hfacts) in Hrun.
    apply Return_inj in Hrun as <-.
    destruct Hrep as (_ & Hname & _).
    change (Some (PyStr "Sector 62") = Some (PyStr "Sector 18")) in Hname.
    apply (inj Some), PyStr_inj in Hname. discriminate Hname.
Qed.

(** The same run on the frame read from sectors.csv by the concrete
    functions. *)
Example sectors_csv_run :
  init (Some "sectors.csv") = Return sectors_agent ∧
  process_query "Sector 18" sectors_agent =
    (Return (success_response (info_of_row sector_62_row)
               (maps_link_of (info_of_row sector_62_row))),
     sectors_agent).
Proof.
  split; [reflexivity|].
  exact (sector_18_answered_with_sector_62 demo_sector_18_library_facts).
Qed.

Lemma bagh_not_a_stop : "Bagh" ∉ stop_names sample_agent.
Proof.
  rewrite sample_stop_names. intros Hin.
  repeat (apply elem_of_cons in Hin as [Hin|Hin]; [discriminate Hin|]).
  inversion Hin.
Qed.

(** The name "Bagh" is no stop name; its best match "Karol Bagh" scores
    90, so the record of the row of Karol Bagh is returned. *)
Lemma C3_find_nearest_toilet_witness :
  ("Bagh" ∉ stop_names sample_agent) ∧
  extractOne "Bagh" (stop_names sample_agent) = Some ("Karol Bagh", 90) ∧
  ∃ row, first_row_named "Karol Bagh" sample_df row ∧
    find_nearest_toilet "Bagh" sample_agent =
      (Return (Some {| ti_stop_name := stop_name row;
                       ti_stop_lat := stop_lat row;
                       ti_stop_lon := stop_lon row;
                       ti_washroom_id := nearest_washroom_id row;
                       ti_washroom_lat := washroom_latitude row;
                       ti_washroom_lon := washroom_longitude row;
                       ti_washroom_address := washroom_address row;
                       ti_distance := distance row |}),
       sample_agent).
Proof.
  split; [exact bagh_not_a_stop|]. split; [reflexivity|].
  destruct (proj2 (proj2 (proj2 (C3_find_nearest_toilet Demo.weighted_ratio
              sample_df "Bagh" best_choice_best_match) bagh_not_a_stop
              "Karol Bagh" 90 ltac:(reflexivity)))) as (row & Hfirst & _ & _ & Hfind);
    [lia|].
  exists row. split; [exact Hfirst|exact Hfind].
Defined.

Lemma process_query_returns_witness :
  (process_query "toilets in Delhi" sample_agent).1 ≠ Raise TypeError ∧
  (process_query "toilets in Delhi" sample_agent).1 ≠ Raise IndexError.
Proof.
  exact (proj2 (process_query_returns Demo.weighted_ratio sample_df
                  best_choice_best_match sample_df_rows) "toilets in Delhi").
Defined.

Lemma best_choice_no_choices (location : string) : extractOne location [] = None.
Proof. reflexivity. Qed.


Lemma success_response_from_first_row_witness :
  let resp := success_response (info_of_row connaught_place_row)
                (maps_link_of (info_of_row connaught_place_row)) in
  ∃ row, row ∈ df sample_agent ∧ reports_row resp row.
Proof.
  intros resp.
  destruct (success_response_from_first_row "I need a washroom near Connaught Place"
              sample_agent sample_agent resp)
    as (row & before & after & Hsplit & _ & _ & Hreports & _);
    [reflexivity|reflexivity|].
  exists row. split; [|exact Hreports].
  rewrite Hsplit. apply elem_of_app. right. left.
Defined.

Lemma extract_location_first_place_entity_witness :
  extract_location "toilets in Delhi" sample_agent = (Return (Some "Delhi"), sample_agent).
Proof.
  apply (extract_location_first_place_entity "toilets in Delhi" sample_agent
           [] [] "Delhi" "GPE").
  - reflexivity.
  - right. reflexivity.
  - intros ent Hin. inversion Hin.
Defined.

Lemma entity_stop_name_resolves_witness :
  ∃ (row : Row) (resp : gmap string pyval),
    first_row_named "Connaught Place" sample_df row ∧
    process_query "I need a washroom near Connaught Place" sample_agent =
      (Return resp, sample_agent) ∧
    answers_with_row resp row.
Proof.
  apply (entity_stop_name_resolves sample_df "I need a washroom near Connaught Place"
           "Connaught Place" []).
  - vm_compute. reflexivity.
  - discriminate.
  - do 2 right. left.
Defined.

Lemma delhi_in_station_name :
  "Delhi" ∉ stop_name <$> [new_delhi_row].
Proof.
  intros Hin. apply list_elem_of_singleton in Hin. discriminate Hin.
Qed.

(** "toilets in Delhi": on the sample frame no stop resembles Delhi (best
    score 0) and the answer is the failure; on the frame of New Delhi
    Station the best stop scores 90 and its row is the answer. *)
Lemma entity_unknown_name_resolves_witness :
  process_query "toilets in Delhi" sample_agent =
    (Return (failure_response
       "I couldn't find a bus stand matching 'Delhi' in our database."),
     sample_agent) ∧
  ∃ (row : Row) (resp : gmap string pyval),
    first_row_named "New Delhi Station" [new_delhi_row] row ∧
    process_query "toilets in Delhi" (agent_of_df [new_delhi_row]) =
      (Return resp, agent_of_df [new_delhi_row]) ∧
    answers_with_row resp row.
Proof.
  split.
  - refine (proj1 (entity_unknown_name_resolves sample_df "toilets in Delhi" "Delhi" []
                     "Arjun Nagar" 0 _ _ delhi_not_a_stop _ _) _).
    + reflexivity.
    + discriminate.
    + reflexivity.
    + left.
    + lia.
  - refine (proj2 (entity_unknown_name_resolves [new_delhi_row] "toilets in Delhi"
                     "Delhi" [] "New Delhi Station" 90 _ _ delhi_in_station_name _ _) _).
    + reflexivity.
    + discriminate.
    + reflexivity.
    + left.
    + lia.
Defined.

Lemma hauz_khas_scores_above (x : string) :
  x ∈ ["Arjun Nagar"; "Karol Bagh"; "Connaught Place"; "Lajpat Nagar"] →
  partial_ratio (filtered_tokens "Public toilet close to Hauz Khas please") (lower x) <
  partial_ratio (filtered_tokens "Public toilet close to Hauz Khas please")
    (lower "Hauz Khas").
Proof.
  intros Hin. repeat (apply elem_of_cons in Hin as [->|Hin]); [..|inversion Hin];
    reflexivity.
Qed.

Lemma fallback_best_stop_resolves_witness :
  ∃ (row : Row) (resp : gmap string pyval),
    first_row_named "Hauz Khas" sample_df row ∧
    process_query "Public toilet close to Hauz Khas please" sample_agent =
      (Return resp, sample_agent) ∧
    answers_with_row resp row.
Proof.
  apply (fallback_best_stop_resolves sample_df "Public toilet close to Hauz Khas please"
           "Hauz Khas" ["Arjun Nagar"; "Karol Bagh"; "Connaught Place"; "Lajpat Nagar"] []).
  - reflexivity.
  - discriminate.
  - reflexivity.
  - reflexivity.
  - exact hauz_khas_scores_above.
  - intros x Hin. inversion Hin.
Defined.

Lemma show_result_no_key_error_witness :
  ∃ (calls : list st_call) (message : string),
    show_result demo_num_bool (failure_response no_location_message) = (calls, inr ()) ∧
    failure_response no_location_message !! "message" = Some (PyStr message) ∧
    st_markdown message false ∈ calls.
Proof.
  exact (show_result_no_key_error demo_num_bool "please help me" sample_agent sample_agent
           (failure_response no_location_message) please_help_me_response).
Defined.

Lemma result_map_matches_link_witness :
  let resp := success_response (info_of_row connaught_place_row)
                (maps_link_of (info_of_row connaught_place_row)) in
  ∃ row, row ∈ df sample_agent ∧
    resp !! "directions_link" = Some (PyStr (
      "https://www.google.com/maps/dir/?api=1&origin=" +:+ py_format (stop_lat row)
      +:+ "," +:+ py_format (stop_lon row)
      +:+ "&destination=" +:+ py_format (washroom_latitude row)
      +:+ "," +:+ py_format (washroom_longitude row)
      +:+ "&travelmode=walking")).
Proof.
  intros resp.
  destruct (result_map_matches_link "I need a washroom near Connaught Place"
              sample_agent sample_agent resp)
    as (row & Hrow & _ & Hlink); [reflexivity|reflexivity|].
  exists row. split; [exact Hrow|exact Hlink].
Defined.

Lemma main_completes_witness :
  ∃ lines : list string,
    main demo_num_bool = (lines, inr ()) ∧
    (∀ query, query ∈ demo_queries → ("Query: " +:+ query) ∈ lines) ∧
    (15 ≤ List.length lines ≤ 20)%nat.
Proof.
  exact (main_completes demo_num_bool Demo.weighted_ratio best_choice_best_match).
Defined.

Lemma results_section_without_rows_witness :
  results_section demo_num_bool true "toilets in Delhi" (agent_of_df []) =
    (([ st_markdown "<h2 class='sub-header'>Results</h2>" true;
        st_spinner "Searching for the nearest toilet..." ],
      inl (AgentError TypeError)),
     agent_of_df []).
Proof.
  apply (results_section_without_rows demo_num_bool "toilets in Delhi" "Delhi" []
           best_choice_no_choices).
  - discriminate.
  - reflexivity.
  - discriminate.
Defined.

End FurtherRuns.
